(** * RAG pipeline of next-js-aisdk: chunking, embeddings, similarity search,
      PDF ingestion and the chat route's knowledge-base tool.

    The development follows the TypeScript sources:
    - [lib/rag-utils/chunking.ts], [lib/rag-utils/embeddings.ts],
      [lib/rag-utils/search.ts], [lib/rag-utils/db-schema.ts]
      (shown verbatim in [src/app/ui/(rag)/rag/RagCode.tsx]);
    - [app/upload/actions.ts] ([processPdfFile]);
    - [app/api/(rag)/rag/route.ts] (the [searchKnoledgeBase] tool).

    The external collaborators (embedding service, PDF text extraction, the
    LangChain splitter, pgvector's distance operator and the database's
    ORDER BY) are fields of a record [Services]; everything the repository
    itself writes is a definition over it. *)

From Stdlib Require Import String Ascii DecimalString NArith ZArith QArith.
From Stdlib Require Import Bool List Permutation Sorted Lia.
Import ListNotations.
Close Scope Q_scope.

(** ** JavaScript strings and the string operations the sources use *)

Module JS.

(** A JavaScript string is a sequence of UTF-16 code units. *)
Definition CodeUnit := N.
Definition JSString := list CodeUnit.

(** String literal of the source, one code unit per ASCII character. *)
Definition lit (s : string) : JSString :=
  List.map N_of_ascii (list_ascii_of_string s).
Arguments lit s%_string.

Definition LF : CodeUnit := 10%N.
Definition SPACE : CodeUnit := 32%N.

(** WhiteSpace and LineTerminator code points, the set [String.prototype.trim]
    strips: TAB, LF, VT, FF, CR, SP, NBSP, the Unicode space separators,
    LS, PS and the byte order mark. *)
Definition isWhiteSpace (c : CodeUnit) : bool :=
  ((9 <=? c) && (c <=? 13) || (c =? 32) || (c =? 160) || (c =? 5760)
   || (8192 <=? c) && (c <=? 8202) || (c =? 8232) || (c =? 8233)
   || (c =? 8239) || (c =? 8287) || (c =? 12288) || (c =? 65279))%N.

Fixpoint trimStart (s : JSString) : JSString :=
  match s with
  | c :: rest => if isWhiteSpace c then trimStart rest else s
  | [] => []
  end.

Definition trimEnd (s : JSString) : JSString := rev (trimStart (rev s)).

(** [s.trim()] *)
Definition trim (s : JSString) : JSString := trimEnd (trimStart s).

(** [text.replace(/\n/g, " ")]: every match of the one-character pattern,
    left to right, is replaced by the one-character string. *)
Fixpoint replaceNewlines (text : JSString) : JSString :=
  match text with
  | [] => []
  | c :: rest =>
      (if (c =? LF)%N then SPACE else c) :: replaceNewlines rest
  end.

(** [parts.join(sep)] *)
Fixpoint join (sep : JSString) (parts : list JSString) : JSString :=
  match parts with
  | [] => []
  | [p] => p
  | p :: rest => p ++ sep ++ join sep rest
  end.

(** Decimal rendering of a non-negative integer inside a template literal. *)
Definition toString (n : nat) : JSString :=
  lit (NilEmpty.string_of_uint (Nat.to_uint n)).

(** [xs.map((x, index) => f(x, index))] *)
Fixpoint mapi_from {A B} (start : nat) (f : A -> nat -> B) (xs : list A)
  : list B :=
  match xs with
  | [] => []
  | x :: rest => f x start :: mapi_from (S start) f rest
  end.

Definition mapi {A B} (f : A -> nat -> B) (xs : list A) : list B :=
  mapi_from 0 f xs.

End JS.
Import JS.

(** ** Exceptions and awaited calls *)

(** Which collaborator an exception comes from. *)
Inductive Origin : Type :=
| PdfParser          (* pdf-parse *)
| EmbeddingService   (* ai.embed / ai.embedMany *)
| Store              (* drizzle / the database *)
| Runtime.           (* a TypeError of the JavaScript runtime *)

Record Exn : Type := mkExn { origin : Origin; message : JSString }.

(** Result of awaiting a call: it returns a value or throws. *)
Inductive Outcome (A : Type) : Type :=
| Returned (a : A)
| Thrown (e : Exn).
Arguments Returned {A} a.
Arguments Thrown {A} e.

(** An external call either fails with an error message or yields a value;
    the exception it throws carries the collaborator as origin. *)
Definition await {A} (who : Origin) (r : JSString + A) : Outcome A :=
  match r with
  | inl msg => Thrown (mkExn who msg)
  | inr a => Returned a
  end.

(** ** Data model (lib/rag-utils/db-schema.ts) *)

(** Numbers that stand for real quantities (vector components, distances,
    similarities, the threshold) are rationals: the claims below depend on
    their order only. *)

Definition Embedding := list Q.

(** [vector("embedding", { dimensions: 1536 })] *)
Definition dimensions : nat := 1536.

(** A row of the [documents] table: [id] serial primary key, [content]
    text not null, [embedding] nullable vector. *)
Record Row : Type := mkRow {
  row_id : Z;
  row_content : JSString;
  row_embedding : option Embedding
}.

(** A value handed to [db.insert(documents).values] (the id is assigned by
    the database). *)
Record InsertDocument : Type := mkInsert {
  content : JSString;
  embedding : option Embedding
}.

(** One element of what [searchDocuments] selects:
    [{ id, content, similarity }]. *)
Record SearchResult : Type := mkResult {
  id : Z;
  result_content : JSString;
  similarity : Q
}.

(** [new RecursiveCharacterTextSplitter({ chunkSize, chunkOverlap, separators })] *)
Record TextSplitterConfig : Type := mkSplitter {
  chunkSize : nat;
  chunkOverlap : nat;
  separators : list JSString
}.

(** Descending order on the sort key of [orderBy(desc(similarity))]. *)
Definition desc (a b : SearchResult) : Prop :=
  (similarity b <= similarity a)%Q.

(** ** External collaborators *)

Record Services : Type := mkServices {
  (** [embed({ model: text-embedding-3-small, value })] *)
  embed : JSString -> JSString + Embedding;
  (** [embedMany({ model: text-embedding-3-small, values })] *)
  embedMany : list JSString -> JSString + list Embedding;
  (** pgvector's cosine distance operator behind [cosineDistance(a, b)] *)
  cosineDistance : Embedding -> Embedding -> Q;
  (** [splitter.splitText(text)] of @langchain/textsplitters *)
  splitText : TextSplitterConfig -> JSString -> list JSString;
  (** [new PDFParse({ data }).getText()], the [text] of its result *)
  getText : list N -> JSString + JSString;
  (** the database's ORDER BY on the single key [similarity] DESC, in a
      query with the given LIMIT ([None] when the query has none): some
      rearrangement of the rows that is descending in that key; the SQL
      query names no further key, so nothing more is known of it, and the
      order of equal keys may differ from one LIMIT to another *)
  orderByDesc : option nat -> list SearchResult -> list SearchResult;
  orderByDesc_perm : forall rows l, Permutation l (orderByDesc rows l);
  orderByDesc_sorted : forall rows l, Sorted desc (orderByDesc rows l)
}.

(** ** lib/rag-utils/embeddings.ts *)

Definition generateEmbedding (S : Services) (text : JSString)
  : Outcome Embedding :=
  let input := replaceNewlines text in
  await EmbeddingService (embed S input).

Definition generateEmbeddings (S : Services) (texts : list JSString)
  : Outcome (list Embedding) :=
  let inputs := List.map (fun text => replaceNewlines text) texts in
  await EmbeddingService (embedMany S inputs).

(** ** lib/rag-utils/chunking.ts *)

Definition textSplitter : TextSplitterConfig :=
  {| chunkSize := 150; chunkOverlap := 20; separators := [lit " "] |}.

Definition chunkContent (S : Services) (content : JSString) : list JSString :=
  splitText S textSplitter (trim content).

(** ** The database behind [db] (lib/rag-utils/db-config.ts) *)

(** The [documents] table with the next value of its serial, and whether
    the connection can be used. *)
Record Database : Type := mkDb {
  online : bool;
  documents : list Row;
  serial : Z
}.

Definition connectionError : Exn :=
  mkExn Store (lit "Error connecting to database").

(** Rows given consecutive ids from [next] on. *)
Fixpoint assignIds (next : Z) (values : list InsertDocument) : list Row :=
  match values with
  | [] => []
  | v :: rest =>
      mkRow next (content v) (embedding v) :: assignIds (next + 1) rest
  end.

(** The column type [vector(1536)] accepts NULL and vectors of exactly
    1536 components. *)
Definition fitsColumn (v : InsertDocument) : bool :=
  match embedding v with
  | None => true
  | Some e => Nat.eqb (length e) dimensions
  end.

(** [await db.insert(documents).values(values)]: one INSERT statement.  It
    throws when the connection is down, when [values] is empty (drizzle
    refuses an empty array) and when a vector has the wrong dimension; a
    statement that throws inserts nothing. *)
Definition insertValues (db : Database) (values : list InsertDocument)
  : Outcome Database :=
  if negb (online db) then Thrown connectionError
  else match values with
       | [] =>
           Thrown (mkExn Store (lit "values() must be called with at least one value"))
       | _ :: _ =>
           if forallb fitsColumn values
           then Returned {| online := online db;
                            documents := documents db ++ assignIds (serial db) values;
                            serial := serial db + Z.of_nat (length values) |}
           else Thrown (mkExn Store (lit "expected 1536 dimensions"))
       end.

(** ** lib/rag-utils/search.ts *)

(** [gt(a, b)], SQL [a > b] *)
Definition gt (a b : Q) : bool := negb (Qle_bool a b).

(** The selected column [1 - (cosineDistance(documents.embedding, embedding))];
    NULL when the row has no embedding. *)
Definition similarityOf (S : Services) (embedding : Embedding) (row : Row)
  : option Q :=
  match row_embedding row with
  | Some stored => Some (1 - cosineDistance S stored embedding)%Q
  | None => None
  end.

(** [.select({ id, content, similarity }).from(documents)
     .where(gt(similarity, threshold))]: a row whose similarity is NULL does
    not satisfy the condition. *)
Fixpoint selectWhere (S : Services) (embedding : Embedding) (threshold : Q)
  (rows : list Row) : list SearchResult :=
  match rows with
  | [] => []
  | row :: rest =>
      match similarityOf S embedding row with
      | Some s =>
          if gt s threshold
          then mkResult (row_id row) (row_content row) s
                 :: selectWhere S embedding threshold rest
          else selectWhere S embedding threshold rest
      | None => selectWhere S embedding threshold rest
      end
  end.

(** A JavaScript number as [limit] receives it: not validated, so it may
    be negative, fractional, infinite or NaN. *)
Inductive Number : Type :=
| NaN
| Infinity
| NegInfinity
| Finite (q : Q).

(** The number written as an integer literal. *)
Definition num (z : Z) : Number := Finite (z # 1)%Q.

(** [limit >= 0] *)
Definition geZero (limit : Number) : bool :=
  match limit with
  | Finite q => Qle_bool 0 q
  | Infinity => true
  | NaN | NegInfinity => false
  end.

(** [n <= limit] for a length [n] *)
Definition lengthAtMost (n : nat) (limit : Number) : Prop :=
  match limit with
  | Finite q => (inject_Z (Z.of_nat n) <= q)%Q
  | Infinity => True
  | NaN | NegInfinity => False
  end.

Definition isInteger (q : Q) : bool :=
  (Z.rem (Qnum q) (Zpos (Qden q)) =? 0)%Z.

Definition toInteger (q : Q) : Z := (Qnum q / Zpos (Qden q))%Z.

(** What becomes of [.limit(limit)] in the query. *)
Inductive LimitClause : Type :=
| NoLimit                (* the query has no LIMIT *)
| LimitRows (rows : nat) (* LIMIT rows *)
| BadLimit.              (* a LIMIT the database rejects *)

(** drizzle writes the LIMIT only for a number with [limit >= 0], so a
    negative or NaN limit leaves the query without one; the database takes
    a LIMIT that is an integer below 2^63 and rejects any other. *)
Definition limitClause (limit : Number) : LimitClause :=
  if geZero limit
  then match limit with
       | Finite q =>
           if isInteger q && (toInteger q <? 2 ^ 63)%Z
           then LimitRows (Z.to_nat (toInteger q))
           else BadLimit
       | _ => BadLimit
       end
  else NoLimit.

Definition limitError : Exn :=
  mkExn Store (lit "invalid input syntax for type bigint").

(** The whole query: [... .orderBy(desc(similarity)).limit(limit)]. *)
Definition similarDocuments (S : Services) (db : Database)
  (embedding : Embedding) (limit : Number) (threshold : Q)
  : Outcome (list SearchResult) :=
  if online db
  then let selected := selectWhere S embedding threshold (documents db) in
       match limitClause limit with
       | NoLimit => Returned (orderByDesc S None selected)
       | LimitRows rows =>
           Returned (firstn rows (orderByDesc S (Some rows) selected))
       | BadLimit => Thrown limitError
       end
  else Thrown connectionError.

(** [searchDocuments(query, limit = 5, threshold = 0.5)] *)
Definition searchDocuments (S : Services) (db : Database) (query : JSString)
  (limit : Number) (threshold : Q) : Outcome (list SearchResult) :=
  match generateEmbedding S query with
  | Returned embedding => similarDocuments S db embedding limit threshold
  | Thrown e => Thrown e
  end.

Definition defaultLimit : Number := num 5.
Definition defaultThreshold : Q := (1 # 2)%Q.

(** ** app/upload/actions.ts *)

(** An entry of a FormData: a File (its bytes) or a string. *)
Inductive FormDataEntryValue : Type :=
| EntryFile (bytes : list N)
| EntryString (value : JSString).

Definition FormData := list (JSString * FormDataEntryValue).

Definition eqString (a b : JSString) : bool :=
  if list_eq_dec N.eq_dec a b then true else false.

(** [formData.get(name)]: the first entry of that name, or null. *)
Fixpoint formData_get (formData : FormData) (name : JSString)
  : option FormDataEntryValue :=
  match formData with
  | [] => None
  | (n, v) :: rest => if eqString n name then Some v else formData_get rest name
  end.

(** What the server action returns: [{ success: true, message }] or
    [{ success: false, error }]. *)
Inductive ActionResult : Type :=
| Success (message : JSString)
| Failure (error : JSString).

Definition success (r : ActionResult) : bool :=
  match r with Success _ => true | Failure _ => false end.

(** Statements of the action run against the database and may throw. *)
Definition Action (A : Type) : Type := Database -> Outcome A * Database.

Definition ret {A} (a : A) : Action A := fun db => (Returned a, db).

Definition bind {A B} (m : Action A) (k : A -> Action B) : Action B :=
  fun db =>
    match m db with
    | (Returned a, db') => k a db'
    | (Thrown e, db') => (Thrown e, db')
    end.

(** An awaited call that does not touch the database. *)
Definition call {A} (r : Outcome A) : Action A := fun db => (r, db).

(** [await db.insert(documents).values(records)] *)
Definition insert (records : list InsertDocument) : Action unit :=
  fun db =>
    match insertValues db records with
    | Returned db' => (Returned tt, db')
    | Thrown e => (Thrown e, db)
    end.

(** [try { body } catch (error) { return handler }] *)
Definition tryCatch {A} (body : Action A) (handler : Exn -> A) : Database -> A * Database :=
  fun db =>
    match body db with
    | (Returned a, db') => (a, db')
    | (Thrown e, db') => (handler e, db')
    end.

Declare Scope action_scope.
Delimit Scope action_scope with action.
Notation "x <- m ;; k" := (bind m (fun x => k))
  (at level 100, m at next level, right associativity) : action_scope.

(** [file.arrayBuffer()] then [Buffer.from(bytes)]; the call is a TypeError
    when [formData.get("pdf")] is null or a string. *)
Definition arrayBuffer (file : option FormDataEntryValue) : Outcome (list N) :=
  match file with
  | Some (EntryFile bytes) => Returned bytes
  | _ => Thrown (mkExn Runtime (lit "file.arrayBuffer is not a function"))
  end.

(** [!data.text || data.text.trim().length === 0] *)
Definition noText (text : JSString) : bool :=
  Nat.eqb (length text) 0 || Nat.eqb (length (trim text)) 0.

(** The statements inside [try { ... }]. *)
Definition processPdfFile_try (S : Services) (formData : FormData)
  : Action ActionResult :=
  (let file := formData_get formData (lit "pdf") in
   buffer <- call (arrayBuffer file) ;;
   text <- call (await PdfParser (getText S buffer)) ;;
   if noText text
   then ret (Failure (lit "No text found in PDF"))
   else
     let chunks := chunkContent S text in
     embeddings <- call (generateEmbeddings S chunks) ;;
     let records :=
       mapi (fun chunk index =>
               {| content := chunk; embedding := nth_error embeddings index |})
            chunks in
     _ <- insert records ;;
     ret (Success (lit "Created " ++ toString (length records)
                     ++ lit " searchable chunks")))%action.

Definition processPdfFile (S : Services) (formData : FormData)
  : Database -> ActionResult * Database :=
  tryCatch (processPdfFile_try S formData)
           (fun error => Failure (lit "Failed to process PDF")).

(** ** app/api/(rag)/rag/route.ts: the [searchKnoledgeBase] tool *)

(** What [execute] returns: a string, or the object [{ error, details }]. *)
Inductive ToolOutput : Type :=
| Text (s : JSString)
| ErrorObject (error details : JSString).

(** [results.map((r, i) => `[${i + 1}] ${r.content}`).join("\n")] *)
Definition formattedResults (results : list SearchResult) : JSString :=
  join [LF]
       (mapi (fun r i => lit "[" ++ toString (i + 1) ++ lit "] " ++ result_content r)
             results).

(** [execute: async ({ query }) => ...]; the input schema has the single
    field [query]. *)
Definition execute (S : Services) (db : Database) (query : JSString)
  : ToolOutput :=
  match searchDocuments S db query (num 3) (1 # 2)%Q with
  | Returned results =>
      if Nat.eqb (length results) 0
      then Text (lit "No relevant information found")
      else Text (formattedResults results)
  | Thrown error =>
      ErrorObject (lit "Failed to search the knowledge base") (message error)
  end.

(** ** Two ways a database may carry out ORDER BY similarity DESC *)

(** Insertion of a row into a sorted run: [x] is put in front of the first
    row [h] with [before x h]. *)
Fixpoint insertBy (before : SearchResult -> SearchResult -> bool)
  (x : SearchResult) (l : list SearchResult) : list SearchResult :=
  match l with
  | [] => [x]
  | h :: t => if before x h then x :: h :: t else h :: insertBy before x t
  end.

Definition sortBy (before : SearchResult -> SearchResult -> bool)
  (l : list SearchResult) : list SearchResult :=
  fold_right (insertBy before) [] l.

(** Rows of equal similarity stay in the order they were read. *)
Definition keepTies (x h : SearchResult) : bool :=
  Qle_bool (similarity h) (similarity x).

(** Rows of equal similarity come out in the opposite order. *)
Definition swapTies (x h : SearchResult) : bool :=
  gt (similarity x) (similarity h).

(** ** What the theorems say about strings *)

Definition whiteSpace (c : CodeUnit) : Prop := isWhiteSpace c = true.

(** [t] has no white space at its start. *)
Definition startsClean (t : JSString) : Prop :=
  match t with
  | [] => True
  | c :: _ => isWhiteSpace c = false
  end.

(** [t] is [s] without its leading and trailing white space. *)
Definition trimmed (s t : JSString) : Prop :=
  exists leading trailing,
    s = leading ++ t ++ trailing
    /\ Forall whiteSpace leading /\ Forall whiteSpace trailing
    /\ startsClean t /\ startsClean (rev t).

(** [input] is [text] with each newline replaced by one space and every
    other code unit kept in place. *)
Definition newlinesReplaced (text input : JSString) : Prop :=
  length input = length text
  /\ (forall i c, nth_error text i = Some c ->
        nth_error input i = Some (if N.eq_dec c LF then SPACE else c))
  /\ ~ In LF input.

(** What made an ingestion fail, as the spec names the kinds. *)
Inductive FailureKind : Type :=
| EmptyDocumentError
| EmbeddingServiceError
| StoreError
| OtherError.

(** The failures of one ingestion, told from what was uploaded, from the
    text of the document and from what the collaborators answer:
    - no file under "pdf", or the parser throws: [OtherError];
    - the text of the document is empty or white space only:
      [EmptyDocumentError];
    - otherwise, the embedding service fails on the document's chunks:
      [EmbeddingServiceError];
    - otherwise, the store refuses the insert of the chunks with their
      vectors: [StoreError]. *)
Inductive IngestionFailure (S : Services) (formData : FormData)
  (db : Database) : FailureKind -> Prop :=
| NoFile :
    (forall bytes, formData_get formData (lit "pdf") <> Some (EntryFile bytes)) ->
    IngestionFailure S formData db OtherError
| ParserFailed (bytes : list N) (msg : JSString) :
    formData_get formData (lit "pdf") = Some (EntryFile bytes) ->
    getText S bytes = inl msg ->
    IngestionFailure S formData db OtherError
| NoTextInDocument (bytes : list N) (text : JSString) :
    formData_get formData (lit "pdf") = Some (EntryFile bytes) ->
    getText S bytes = inr text ->
    Forall whiteSpace text ->
    IngestionFailure S formData db EmptyDocumentError
| EmbedderFailed (bytes : list N) (text msg : JSString) :
    formData_get formData (lit "pdf") = Some (EntryFile bytes) ->
    getText S bytes = inr text ->
    ~ Forall whiteSpace text ->
    embedMany S (List.map replaceNewlines (splitText S textSplitter (trim text)))
    = inl msg ->
    IngestionFailure S formData db EmbeddingServiceError
| StoreFailed (bytes : list N) (text : JSString)
    (embeddings : list Embedding) (e : Exn) :
    formData_get formData (lit "pdf") = Some (EntryFile bytes) ->
    getText S bytes = inr text ->
    ~ Forall whiteSpace text ->
    embedMany S (List.map replaceNewlines (splitText S textSplitter (trim text)))
    = inr embeddings ->
    insertValues db
      (mapi (fun chunk index =>
               {| content := chunk; embedding := nth_error embeddings index |})
            (splitText S textSplitter (trim text)))
    = Thrown e ->
    IngestionFailure S formData db StoreError.

(** The error text the caller is to receive for a kind of failure. *)
Definition errorFor (kind : FailureKind) : JSString :=
  match kind with
  | EmptyDocumentError => lit "No text found in PDF"
  | _ => lit "Failed to process PDF"
  end.

(** ** Sample data for the examples *)

(** A splitter that cuts at every space (enough to run the pipeline). *)
Fixpoint splitAtSpaces (word text : JSString) : list JSString :=
  match text with
  | [] => match word with [] => [] | _ => [rev word] end
  | c :: rest =>
      if (c =? SPACE)%N
      then match word with
           | [] => splitAtSpaces [] rest
           | _ => rev word :: splitAtSpaces [] rest
           end
      else splitAtSpaces (c :: word) rest
  end.

(** A vector of 1536 components, all zero but the first. *)
Definition vec (first : Q) : Embedding := first :: repeat (0 # 1)%Q 1535.

(** The vector the test embedder gives a text: its first component is the
    length of the text. *)
Definition stubVector (text : JSString) : Embedding :=
  vec (Z.of_nat (length text) # 1)%Q.

(** A store of four rows: similarities 9/10, 9/10, 1/2 and 3/5 to any query,
    and one row without embedding. *)
Definition sampleDb : Database :=
  {| online := true;
     documents :=
       [ mkRow 1 (lit "the quick brown fox") (Some (vec (1 # 10)%Q));
         mkRow 2 (lit "jumps over") (Some (vec (1 # 10)%Q));
         mkRow 3 (lit "the lazy dog") (Some (vec (1 # 2)%Q));
         mkRow 4 (lit "and runs") (Some (vec (2 # 5)%Q));
         mkRow 5 (lit "pending") None ];
     serial := 6 |}.

(** Two rows around the default threshold: similarity exactly 0.5 and
    similarity 0.500001. *)
Definition thresholdDb : Database :=
  {| online := true;
     documents :=
       [ mkRow 1 (lit "exactly at") (Some (vec (1 # 2)%Q));
         mkRow 2 (lit "just above") (Some (vec (499999 # 1000000)%Q)) ];
     serial := 3 |}.

Definition emptyDb : Database := {| online := true; documents := []; serial := 1 |}.
Definition offlineDb : Database := {| online := false; documents := []; serial := 1 |}.

(** An upload whose PDF holds the text of the spec's end-to-end scenario. *)
Definition sampleUpload : FormData :=
  [ (lit "pdf", EntryFile (lit "the quick brown fox")) ].

(** What the sample store holds for a query, best first. *)
Definition foxTop3 : list SearchResult :=
  [ mkResult 1 (lit "the quick brown fox") (9 # 10)%Q;
    mkResult 2 (lit "jumps over") (9 # 10)%Q;
    mkResult 4 (lit "and runs") (3 # 5)%Q ].

Definition foxTop2 : list SearchResult :=
  [ mkResult 1 (lit "the quick brown fox") (9 # 10)%Q;
    mkResult 2 (lit "jumps over") (9 # 10)%Q ].

(** The same three rows with the two of similarity 9/10 exchanged. *)
Definition foxTiesSwapped : list SearchResult :=
  [ mkResult 2 (lit "jumps over") (9 # 10)%Q;
    mkResult 1 (lit "the quick brown fox") (9 # 10)%Q;
    mkResult 4 (lit "and runs") (3 # 5)%Q ].

(** * Properties *)

(** ** Strings *)

Section Strings.

Lemma trimStart_split (s : JSString) :
  exists leading,
    s = leading ++ trimStart s /\ Forall whiteSpace leading
    /\ startsClean (trimStart s).
Proof.
  induction s as [|c s IH]; simpl.
  - exists []. repeat split; auto.
  - destruct (isWhiteSpace c) eqn:Hc.
    + destruct IH as (l & Hs & Hl & Hclean).
      exists (c :: l). repeat split; auto.
      simpl. now rewrite <- Hs.
    + exists []. repeat split; auto.
Qed.

Lemma trimStart_snoc (s : JSString) (c : CodeUnit) :
  isWhiteSpace c = false -> trimStart (s ++ [c]) = trimStart s ++ [c].
Proof.
  intros Hc. induction s as [|d s IH]; simpl.
  - now rewrite Hc.
  - destruct (isWhiteSpace d); auto.
Qed.

Lemma trimEnd_split (s : JSString) :
  exists trailing,
    s = trimEnd s ++ trailing /\ Forall whiteSpace trailing
    /\ startsClean (rev (trimEnd s)).
Proof.
  unfold trimEnd.
  destruct (trimStart_split (rev s)) as (l & Hs & Hl & Hclean).
  exists (rev l). rewrite rev_involutive. repeat split; auto.
  - rewrite <- rev_app_distr, <- Hs. now rewrite rev_involutive.
  - now apply Forall_rev.
Qed.

Lemma trimEnd_keeps_start (s : JSString) :
  startsClean s -> startsClean (trimEnd s).
Proof.
  destruct s as [|c s]; simpl; intros Hc.
  - exact I.
  - unfold trimEnd. simpl rev. rewrite trimStart_snoc by assumption.
    rewrite rev_app_distr. simpl. assumption.
Qed.

Lemma trim_trimmed (s : JSString) : trimmed s (trim s).
Proof.
  unfold trim.
  destruct (trimStart_split s) as (l & Hs & Hl & Hclean).
  destruct (trimEnd_split (trimStart s)) as (r & Hm & Hr & Hend).
  exists l, r. repeat split; auto.
  - now rewrite <- Hm.
  - now apply trimEnd_keeps_start.
Qed.

Lemma trimStart_clean (s : JSString) : startsClean s -> trimStart s = s.
Proof.
  destruct s as [|c s]; simpl; [reflexivity|]. now intros ->.
Qed.

Lemma trimStart_leading (l s : JSString) :
  Forall whiteSpace l -> trimStart (l ++ s) = trimStart s.
Proof.
  induction 1 as [|c l Hc _ IH]; simpl; [reflexivity|].
  now rewrite Hc.
Qed.

(** [trim s] is the only string that is [s] without its leading and
    trailing white space. *)
Lemma trimmed_unique (s t : JSString) : trimmed s t -> t = trim s.
Proof.
  intros (l & r & -> & Hl & Hr & Hstart & Hend).
  unfold trim, trimEnd. rewrite (trimStart_leading l _ Hl).
  destruct t as [|c t].
  - simpl. rewrite <- (app_nil_r r).
    rewrite (trimStart_leading r [] Hr). reflexivity.
  - rewrite (trimStart_clean ((c :: t) ++ r)) by exact Hstart.
    rewrite rev_app_distr.
    rewrite (trimStart_leading _ _ (Forall_rev Hr)).
    rewrite (trimStart_clean _ Hend). now rewrite rev_involutive.
Qed.

Lemma replaceNewlines_length (text : JSString) :
  length (replaceNewlines text) = length text.
Proof. induction text; simpl; congruence. Qed.

Lemma replaceNewlines_nth (text : JSString) :
  forall i c, nth_error text i = Some c ->
    nth_error (replaceNewlines text) i
    = Some (if N.eq_dec c LF then SPACE else c).
Proof.
  induction text as [|d text IH]; intros [|i] c H; simpl in *;
    try discriminate.
  - injection H as ->. destruct (N.eqb_spec c LF), (N.eq_dec c LF);
      congruence.
  - now apply IH.
Qed.

Lemma replaceNewlines_no_LF (text : JSString) : ~ In LF (replaceNewlines text).
Proof.
  induction text as [|d text IH]; simpl; [tauto|].
  intros [H|H]; [|tauto].
  destruct (N.eqb_spec d LF); [discriminate H | congruence].
Qed.

Lemma replaceNewlines_spec (text : JSString) :
  newlinesReplaced text (replaceNewlines text).
Proof.
  repeat split.
  - apply replaceNewlines_length.
  - apply replaceNewlines_nth.
  - apply replaceNewlines_no_LF.
Qed.

End Strings.

(** ** ORDER BY *)

Lemma gt_spec (a b : Q) : gt a b = true <-> (b < a)%Q.
Proof.
  unfold gt. rewrite negb_true_iff. split.
  - intros H. apply Qnot_le_lt. intros Hle.
    apply Qle_bool_iff in Hle. congruence.
  - intros H. destruct (Qle_bool a b) eqn:E; auto.
    apply Qle_bool_iff in E. exfalso. exact (Qlt_not_le _ _ H E).
Qed.

Lemma gt_false (a b : Q) : gt a b = false <-> (a <= b)%Q.
Proof.
  unfold gt. rewrite negb_false_iff. apply Qle_bool_iff.
Qed.

Section InsertionSort.

Variable before : SearchResult -> SearchResult -> bool.
Hypothesis before_true : forall x h, before x h = true -> desc x h.
Hypothesis before_false : forall x h, before x h = false -> desc h x.

Lemma insertBy_perm (x : SearchResult) (l : list SearchResult) :
  Permutation (x :: l) (insertBy before x l).
Proof.
  induction l as [|h t IH]; simpl; auto.
  destruct (before x h); auto.
  apply perm_trans with (h :: x :: t); [apply perm_swap | now constructor].
Qed.

Lemma sortBy_perm (l : list SearchResult) : Permutation l (sortBy before l).
Proof.
  induction l as [|x l IH]; simpl; auto.
  apply perm_trans with (x :: sortBy before l); [now constructor|].
  apply insertBy_perm.
Qed.

Lemma insertBy_sorted (x : SearchResult) (l : list SearchResult) :
  Sorted desc l -> Sorted desc (insertBy before x l).
Proof.
  induction l as [|h t IH]; simpl; intros Hs.
  - repeat constructor.
  - destruct (before x h) eqn:E.
    + constructor; [assumption|]. constructor. now apply before_true.
    + inversion Hs as [|? ? Ht Hhd]; subst.
      constructor; [now apply IH|].
      destruct t as [|k t]; simpl.
      * constructor. now apply before_false.
      * destruct (before x k).
        -- constructor. now apply before_false.
        -- inversion Hhd; subst. now constructor.
Qed.

Lemma sortBy_sorted (l : list SearchResult) : Sorted desc (sortBy before l).
Proof.
  induction l as [|x l IH]; simpl; [constructor|].
  now apply insertBy_sorted.
Qed.

End InsertionSort.

Lemma keepTies_true x h : keepTies x h = true -> desc x h.
Proof. unfold keepTies, desc. apply Qle_bool_iff. Qed.

Lemma keepTies_false x h : keepTies x h = false -> desc h x.
Proof.
  unfold keepTies, desc. intros H. apply Qlt_le_weak, Qnot_le_lt.
  intros Hle. apply Qle_bool_iff in Hle. congruence.
Qed.

Lemma swapTies_true x h : swapTies x h = true -> desc x h.
Proof. unfold swapTies, desc. intros H. now apply Qlt_le_weak, gt_spec. Qed.

Lemma swapTies_false x h : swapTies x h = false -> desc h x.
Proof. unfold swapTies, desc. apply gt_false. Qed.

(** ** Test doubles for the collaborators *)

(** Services whose embedder answers when [up] and fails otherwise, whose
    distance is read off the first component of the stored vector, and
    whose ORDER BY inserts with [before]. *)
Definition stubServices (up : bool)
  (before : SearchResult -> SearchResult -> bool)
  (before_true : forall x h, before x h = true -> desc x h)
  (before_false : forall x h, before x h = false -> desc h x) : Services :=
  {| embed := fun value =>
       if up then inr (stubVector value) else inl (lit "429 quota exceeded");
     embedMany := fun values =>
       if up then inr (List.map stubVector values)
       else inl (lit "429 quota exceeded");
     cosineDistance := fun stored _ => hd (1 # 1)%Q stored;
     splitText := fun _ text => splitAtSpaces [] text;
     getText := fun bytes => match bytes with
                             | [] => inl (lit "Invalid PDF structure")
                             | _ => inr bytes
                             end;
     orderByDesc := fun _ => sortBy before;
     orderByDesc_perm := fun _ => sortBy_perm before;
     orderByDesc_sorted := fun _ => sortBy_sorted before before_true before_false |}.

(** Embedder up, ties kept in reading order. *)
Definition stable : Services := stubServices true keepTies keepTies_true keepTies_false.
(** Embedder up, ties in the opposite order. *)
Definition reversing : Services := stubServices true swapTies swapTies_true swapTies_false.
(** Embedder down. *)
Definition embedderDown : Services :=
  stubServices false keepTies keepTies_true keepTies_false.

(** Embedder up; the order of equal keys depends on whether the query has
    a LIMIT. *)
Definition planDependent : Services :=
  {| embed := embed stable;
     embedMany := embedMany stable;
     cosineDistance := cosineDistance stable;
     splitText := splitText stable;
     getText := getText stable;
     orderByDesc := fun rows =>
       match rows with
       | Some _ => sortBy swapTies
       | None => sortBy keepTies
       end;
     orderByDesc_perm := fun rows =>
       match rows with
       | Some _ => sortBy_perm swapTies
       | None => sortBy_perm keepTies
       end;
     orderByDesc_sorted := fun rows =>
       match rows with
       | Some _ => sortBy_sorted swapTies swapTies_true swapTies_false
       | None => sortBy_sorted keepTies keepTies_true keepTies_false
       end |}.

Example searchDocuments_sample :
  searchDocuments stable sampleDb (lit "fox") (num 3) (1 # 2)%Q
  = Returned foxTop3.
Proof. vm_compute. reflexivity. Qed.

Example searchDocuments_at_threshold :
  searchDocuments stable thresholdDb (lit "fox") defaultLimit defaultThreshold
  = Returned [ mkResult 2 (lit "just above") (500001 # 1000000)%Q ].
Proof. vm_compute. reflexivity. Qed.

(** A negative or NaN limit leaves the query without LIMIT; a fractional or
    infinite one is rejected by the database. *)
Example searchDocuments_odd_limits :
  searchDocuments stable sampleDb (lit "fox") (num (-1)) (1 # 2)%Q
  = Returned foxTop3
  /\ searchDocuments stable sampleDb (lit "fox") NaN (1 # 2)%Q
     = Returned foxTop3
  /\ searchDocuments stable sampleDb (lit "fox") (Finite (5 # 2)%Q) (1 # 2)%Q
     = Thrown limitError
  /\ searchDocuments stable sampleDb (lit "fox") Infinity (1 # 2)%Q
     = Thrown limitError
  /\ searchDocuments stable sampleDb (lit "fox") (num (2 ^ 63)) (1 # 2)%Q
     = Thrown limitError.
Proof. vm_compute. repeat split. Qed.

(** With a database whose tie order depends on the LIMIT, the answer to a
    smaller limit need not be the start of the answer to a larger one. *)
Example searchDocuments_limit_changes_ties :
  searchDocuments planDependent sampleDb (lit "fox") (num 2) (1 # 2)%Q
  = Returned [ mkResult 2 (lit "jumps over") (9 # 10)%Q;
               mkResult 1 (lit "the quick brown fox") (9 # 10)%Q ]
  /\ searchDocuments planDependent sampleDb (lit "fox") (num (-1)) (1 # 2)%Q
     = Returned foxTop3.
Proof. vm_compute. split; reflexivity. Qed.

(** ** The query of [searchDocuments] *)

Section Search.

Variable S : Services.

(** The WHERE clause keeps exactly the rows whose similarity is defined
    and strictly above the threshold. *)
Lemma selectWhere_In embedding threshold rows r :
  In r (selectWhere S embedding threshold rows) <->
  exists row,
    In row rows
    /\ similarityOf S embedding row = Some (similarity r)
    /\ (threshold < similarity r)%Q
    /\ r = mkResult (row_id row) (row_content row) (similarity r).
Proof.
  induction rows as [|row rows IH]; simpl.
  - split; [tauto | intros (? & [] & _)].
  - destruct (similarityOf S embedding row) as [s|] eqn:Es.
    + destruct (gt s threshold) eqn:Eg.
      * simpl. rewrite IH. split.
        -- intros [<- | (row' & Hin & H)].
           ++ exists row. simpl. apply gt_spec in Eg. auto.
           ++ exists row'. tauto.
        -- intros (row' & [<- | Hin] & Hs & Hlt & Hr).
           ++ left. rewrite Hr. f_equal. congruence.
           ++ right. exists row'. tauto.
      * rewrite IH. split.
        -- intros (row' & Hin & H). exists row'. tauto.
        -- intros (row' & [<- | Hin] & Hs & Hlt & Hr).
           ++ exfalso. apply gt_false in Eg.
              assert (s = similarity r) by congruence. subst s.
              exact (Qlt_not_le _ _ Hlt Eg).
           ++ exists row'. tauto.
    + rewrite IH. split.
      * intros (row' & Hin & H). exists row'. tauto.
      * intros (row' & [<- | Hin] & Hs & Hlt & Hr).
        -- congruence.
        -- exists row'. tauto.
Qed.

Lemma selectWhere_none embedding threshold rows :
  (forall row s, In row rows -> similarityOf S embedding row = Some s ->
                 (s <= threshold)%Q) ->
  selectWhere S embedding threshold rows = [].
Proof.
  intros H.
  destruct (selectWhere S embedding threshold rows) as [|r l] eqn:E; auto.
  assert (Hin : In r (selectWhere S embedding threshold rows))
    by (rewrite E; now left).
  apply selectWhere_In in Hin. destruct Hin as (row & Hrow & Hs & Hlt & _).
  exfalso. exact (Qlt_not_le _ _ Hlt (H _ _ Hrow Hs)).
Qed.

(** What a successful search returns, in terms of the query's stages. *)
Lemma searchDocuments_returned db query limit threshold results :
  searchDocuments S db query limit threshold = Returned results ->
  exists embedding,
    generateEmbedding S query = Returned embedding
    /\ online db = true
    /\ match limitClause limit with
       | NoLimit =>
           results
           = orderByDesc S None
               (selectWhere S embedding threshold (documents db))
       | LimitRows rows =>
           results
           = firstn rows
               (orderByDesc S (Some rows)
                  (selectWhere S embedding threshold (documents db)))
       | BadLimit => False
       end.
Proof.
  unfold searchDocuments, similarDocuments.
  destruct (generateEmbedding S query) as [e|x]; [|discriminate].
  destruct (online db); [|discriminate].
  destruct (limitClause limit); intros H; try discriminate;
    injection H as <-; now exists e.
Qed.

Lemma In_firstn {A} (n : nat) (l : list A) (x : A) :
  In x (firstn n l) -> In x l.
Proof.
  revert l. induction n as [|n IH]; intros [|y l]; simpl; try tauto.
  intros [H|H]; auto.
Qed.

(** Every returned result was selected by the WHERE clause. *)
Lemma searchDocuments_selected db query limit threshold results :
  searchDocuments S db query limit threshold = Returned results ->
  exists embedding,
    generateEmbedding S query = Returned embedding
    /\ forall r, In r results ->
                 In r (selectWhere S embedding threshold (documents db)).
Proof.
  intros H. apply searchDocuments_returned in H.
  destruct H as (e & He & _ & Hres). exists e. split; auto.
  intros r Hr. destruct (limitClause limit); [| |contradiction]; subst results.
  - eapply Permutation_in; [apply Permutation_sym, orderByDesc_perm|exact Hr].
  - apply In_firstn in Hr.
    eapply Permutation_in; [apply Permutation_sym, orderByDesc_perm|exact Hr].
Qed.

Lemma Sorted_firstn {A} (R : A -> A -> Prop) (n : nat) (l : list A) :
  Sorted R l -> Sorted R (firstn n l).
Proof.
  revert l. induction n as [|n IH]; intros l Hs; simpl; [constructor|].
  destruct l as [|a l]; [constructor|].
  inversion Hs as [|? ? Hl Hhd]; subst.
  constructor; [now apply IH|].
  destruct n; simpl; [constructor|].
  destruct l; [constructor|]. inversion Hhd; subst. now constructor.
Qed.

Lemma Sorted_adjacent {A} (R : A -> A -> Prop) (l : list A) :
  Sorted R l ->
  forall i a b, nth_error l i = Some a -> nth_error l (Datatypes.S i) = Some b ->
                R a b.
Proof.
  induction 1 as [|x l Hl IH Hhd]; intros i a b Ha Hb.
  - destruct i; discriminate.
  - destruct i as [|i]; simpl in *.
    + injection Ha as <-. destruct l as [|y l]; [discriminate|].
      simpl in Hb. injection Hb as <-. now inversion Hhd.
    + eapply IH; eauto.
Qed.

(** The results are a sorted start of the selected rows. *)
Lemma searchDocuments_sorted_prefix db query limit threshold results :
  searchDocuments S db query limit threshold = Returned results ->
  exists embedding dropped,
    generateEmbedding S query = Returned embedding
    /\ Permutation (selectWhere S embedding threshold (documents db))
                   (results ++ dropped)
    /\ Sorted desc (results ++ dropped)
    /\ match limitClause limit with
       | NoLimit => dropped = []
       | LimitRows rows =>
           length results
           = Nat.min rows
               (length (selectWhere S embedding threshold (documents db)))
       | BadLimit => False
       end.
Proof.
  intros H. apply searchDocuments_returned in H.
  destruct H as (e & He & _ & Hres). exists e.
  destruct (limitClause limit) as [|rows|]; [| |contradiction]; subst results.
  - exists []. rewrite app_nil_r. repeat split; auto.
    + apply orderByDesc_perm.
    + apply orderByDesc_sorted.
  - exists (skipn rows
              (orderByDesc S (Some rows)
                 (selectWhere S e threshold (documents db)))).
    rewrite firstn_skipn. repeat split; auto.
    + apply orderByDesc_perm.
    + apply orderByDesc_sorted.
    + rewrite length_firstn.
      now rewrite <- (Permutation_length (orderByDesc_perm S _ _)).
Qed.

(** A search whose limit did not cut returned every selected row. *)
Lemma searchDocuments_uncut db query limit threshold results :
  searchDocuments S db query limit threshold = Returned results ->
  (forall rows, limitClause limit = LimitRows rows -> length results < rows) ->
  exists embedding,
    generateEmbedding S query = Returned embedding
    /\ forall r, In r (selectWhere S embedding threshold (documents db)) ->
                 In r results.
Proof.
  intros H Hlt.
  destruct (searchDocuments_sorted_prefix _ _ _ _ _ H)
    as (e & dropped & He & Hperm & _ & Hclause).
  exists e. split; [exact He|]. intros r Hr.
  assert (Hd : dropped = []).
  { destruct (limitClause limit) as [|rows|]; [assumption| |contradiction].
    specialize (Hlt rows eq_refl).
    apply Permutation_length in Hperm. rewrite length_app in Hperm.
    destruct dropped; [reflexivity|]. simpl in Hperm. lia. }
  subst dropped. rewrite app_nil_r in Hperm.
  eapply Permutation_in; [exact Hperm | exact Hr].
Qed.

End Search.

Lemma Sorted_app_l {A} (R : A -> A -> Prop) (l1 l2 : list A) :
  Sorted R (l1 ++ l2) -> Sorted R l1.
Proof.
  induction l1 as [|a l1 IH]; simpl; intros H; [constructor|].
  inversion H as [|? ? Hrest Hhd]; subst.
  constructor; [now apply IH|].
  destruct l1; [constructor|]. inversion Hhd; subst. now constructor.
Qed.

(** An integer-valued rational is its integer part. *)
Lemma toInteger_spec (q : Q) :
  isInteger q = true -> (inject_Z (toInteger q) == q)%Q.
Proof.
  unfold isInteger, toInteger, Qeq. destruct q as [n d]. simpl.
  intros H. apply Z.eqb_eq in H. apply Z.rem_divide in H; [|discriminate].
  destruct H as (k & ->). rewrite Z.div_mul by discriminate. lia.
Qed.

(** What the LIMIT is when the limit is a number with [limit >= 0]. *)
Lemma limitClause_geZero (limit : Number) (rows : nat) :
  geZero limit = true -> limitClause limit = LimitRows rows ->
  exists q, limit = Finite q /\ (inject_Z (Z.of_nat rows) == q)%Q.
Proof.
  unfold limitClause. intros Hge. rewrite Hge.
  destruct limit as [| | |q]; try discriminate.
  destruct (isInteger q) eqn:Hi;
    [rewrite andb_true_l | rewrite andb_false_l; discriminate].
  destruct (_ <? _)%Z; [|discriminate].
  intros H. injection H as <-. exists q. split; [reflexivity|].
  simpl in Hge. apply Qle_bool_iff in Hge.
  assert (Hq := toInteger_spec q Hi).
  rewrite Z2Nat.id; [exact Hq|].
  rewrite <- Hq in Hge. unfold Qle in Hge. simpl in Hge. lia.
Qed.

(** Results in which rows of equal similarity appear by ascending id. *)
Definition tiesByAscendingId (results : list SearchResult) : Prop :=
  forall i j a b,
    i < j -> nth_error results i = Some a -> nth_error results j = Some b ->
    (similarity a == similarity b)%Q -> (id a < id b)%Z.

(** C1.  A successful [searchDocuments] never returns a result whose
    similarity is less than or equal to the threshold: every result is
    strictly above it; a stored record whose similarity equals the
    threshold is not among the results; and a stored record strictly above
    the threshold passes the filter, and is returned whenever the limit
    does not cut the selected rows. *)
Theorem searchDocuments_threshold_strict
  (S : Services) (db : Database) (query : JSString) (limit : Number)
  (threshold : Q) (results : list SearchResult) :
  searchDocuments S db query limit threshold = Returned results ->
  (forall r, In r results ->
     (threshold < similarity r)%Q /\ ~ (similarity r <= threshold)%Q)
  /\ (exists embedding,
        generateEmbedding S query = Returned embedding
        /\ forall row s,
             In row (documents db) ->
             similarityOf S embedding row = Some s ->
             let r := mkResult (row_id row) (row_content row) s in
             ((s == threshold)%Q -> ~ In r results)
             /\ ((threshold < s)%Q ->
                 In r (selectWhere S embedding threshold (documents db))
                 /\ ((forall rows,
                        limitClause limit = LimitRows rows ->
                        length (selectWhere S embedding threshold (documents db))
                        <= rows) ->
                     In r results))).
Proof.
  intros H.
  assert (Hstrict : forall r, In r results -> (threshold < similarity r)%Q).
  { destruct (searchDocuments_selected _ _ _ _ _ _ H) as (e & _ & Hsel).
    intros r Hr. apply Hsel, selectWhere_In in Hr.
    now destruct Hr as (_ & _ & _ & Hlt & _). }
  split.
  - intros r Hr. split; [now apply Hstrict|].
    apply Qlt_not_le. now apply Hstrict.
  - apply searchDocuments_returned in H. destruct H as (e & He & _ & Hres).
    exists e. split; [assumption|]. intros row s Hrow Hs r. split.
    + intros Heq Hin. apply Hstrict in Hin. simpl in Hin.
      rewrite Heq in Hin. exact (Qlt_irrefl _ Hin).
    + intros Hlt.
      assert (Hsel : In r (selectWhere S e threshold (documents db))).
      { apply selectWhere_In. exists row. simpl. auto. }
      split; [assumption|]. intros Hlen.
      destruct (limitClause limit) as [|rows|]; [| |contradiction];
        subst results.
      * eapply Permutation_in; [apply orderByDesc_perm | exact Hsel].
      * rewrite firstn_all2.
        -- eapply Permutation_in; [apply orderByDesc_perm | exact Hsel].
        -- rewrite <- (Permutation_length (orderByDesc_perm S _ _)).
           now apply Hlen.
Qed.

Lemma searchDocuments_threshold_strict_witness :
  searchDocuments stable sampleDb (lit "fox") (num 3) (1 # 2)%Q
  = Returned foxTop3
  /\ forall r, In r foxTop3 ->
       (1 # 2 < similarity r)%Q /\ ~ (similarity r <= 1 # 2)%Q.
Proof.
  assert (H : searchDocuments stable sampleDb (lit "fox") (num 3) (1 # 2)%Q
              = Returned foxTop3) by (vm_compute; reflexivity).
  split; [exact H|].
  exact (proj1 (searchDocuments_threshold_strict
                  stable sampleDb (lit "fox") (num 3) (1 # 2)%Q foxTop3 H)).
Defined.

(** C2 (as amended).  The results of a successful [searchDocuments] are in
    descending order of similarity: each result's similarity is at least
    that of the next one.  (Nothing is promised about the order of results
    of equal similarity: the query sorts on similarity alone.) *)
Theorem searchDocuments_descending
  (S : Services) (db : Database) (query : JSString) (limit : Number)
  (threshold : Q) (results : list SearchResult) :
  searchDocuments S db query limit threshold = Returned results ->
  Sorted desc results
  /\ forall i a b,
       nth_error results i = Some a ->
       nth_error results (i + 1) = Some b ->
       (similarity a >= similarity b)%Q.
Proof.
  intros H.
  destruct (searchDocuments_sorted_prefix _ _ _ _ _ _ H)
    as (e & dropped & _ & _ & Hsorted & _).
  assert (Hs : Sorted desc results) by exact (Sorted_app_l desc _ _ Hsorted).
  split; [exact Hs|].
  intros i a b Ha Hb. rewrite Nat.add_1_r in Hb.
  exact (Sorted_adjacent desc _ Hs i a b Ha Hb).
Qed.

Lemma searchDocuments_descending_witness :
  searchDocuments reversing sampleDb (lit "fox") (num 5) (1 # 2)%Q
  = Returned foxTiesSwapped
  /\ Sorted desc foxTiesSwapped.
Proof.
  assert (H : searchDocuments reversing sampleDb (lit "fox") (num 5) (1 # 2)%Q
              = Returned foxTiesSwapped) by (vm_compute; reflexivity).
  split; [exact H|].
  exact (proj1 (searchDocuments_descending
                  reversing sampleDb (lit "fox") (num 5) (1 # 2)%Q
                  foxTiesSwapped H)).
Defined.

(** C2 as stated fails: with an ORDER BY that is free in the order of equal
    keys, rows 1 and 2 of the sample store (both of similarity 9/10) come
    back as 2, 1. *)
Lemma searchDocuments_ties_not_by_id :
  searchDocuments reversing sampleDb (lit "fox") (num 5) (1 # 2)%Q
  = Returned foxTiesSwapped
  /\ ~ tiesByAscendingId foxTiesSwapped.
Proof.
  split; [vm_compute; reflexivity|].
  intros H.
  specialize (H 0 1 (mkResult 2 (lit "jumps over") (9 # 10)%Q)
                (mkResult 1 (lit "the quick brown fox") (9 # 10)%Q)).
  simpl in H.
  assert (Hlt : (2 < 1)%Z)
    by (apply H; [lia | reflexivity | reflexivity | reflexivity]).
  discriminate Hlt.
Qed.

(** C5 (as amended).  A successful [searchDocuments] with a limit [n >= 0]
    returns at most [n] results, however many stored records exceed the
    threshold; with a limit that is not [>= 0] (negative or NaN) the query
    has no LIMIT and every record above the threshold is returned. *)
Theorem searchDocuments_limit
  (S : Services) (db : Database) (query : JSString) (limit : Number)
  (threshold : Q) (results : list SearchResult) :
  searchDocuments S db query limit threshold = Returned results ->
  (geZero limit = true -> lengthAtMost (length results) limit)
  /\ (geZero limit = false ->
      exists embedding,
        generateEmbedding S query = Returned embedding
        /\ Permutation (selectWhere S embedding threshold (documents db))
                       results).
Proof.
  intros H.
  destruct (searchDocuments_sorted_prefix _ _ _ _ _ _ H)
    as (e & dropped & He & Hperm & _ & Hclause).
  split.
  - intros Hge.
    destruct (limitClause limit) as [|rows|] eqn:El; [| |contradiction].
    + unfold limitClause in El. rewrite Hge in El.
      destruct limit as [| | |q]; try discriminate.
      destruct (isInteger q && (toInteger q <? 2 ^ 63)%Z); discriminate.
    + destruct (limitClause_geZero limit rows Hge El) as (q & -> & Hq).
      simpl. rewrite <- Hq. rewrite <- Zle_Qle. apply inj_le.
      rewrite Hclause. apply Nat.le_min_l.
  - intros Hneg. exists e. split; [exact He|].
    unfold limitClause in Hclause. rewrite Hneg in Hclause.
    subst dropped. now rewrite app_nil_r in Hperm.
Qed.

Lemma searchDocuments_limit_witness :
  searchDocuments stable sampleDb (lit "fox") (num 2) (1 # 2)%Q
  = Returned foxTop2
  /\ geZero (num 2) = true
  /\ lengthAtMost (length foxTop2) (num 2).
Proof.
  assert (H : searchDocuments stable sampleDb (lit "fox") (num 2) (1 # 2)%Q
              = Returned foxTop2) by (vm_compute; reflexivity).
  split; [exact H|]. split; [reflexivity|].
  exact (proj1 (searchDocuments_limit stable sampleDb (lit "fox") (num 2)
                  (1 # 2)%Q foxTop2 H) eq_refl).
Defined.

(** C5 as stated fails: with limit -1 the search returns the three records
    above the threshold, and 3 is not at most -1. *)
Lemma searchDocuments_negative_limit :
  searchDocuments stable sampleDb (lit "fox") (num (-1)) (1 # 2)%Q
  = Returned foxTop3
  /\ length foxTop3 = 3
  /\ ~ lengthAtMost (length foxTop3) (num (-1)).
Proof.
  split; [vm_compute; reflexivity|]. split; [reflexivity|].
  vm_compute. intros H. apply H. reflexivity.
Qed.

(** C6.  When the embedding of the query is obtained and the database
    answers (it is reachable and accepts the limit), [searchDocuments]
    returns the empty sequence whenever no stored record is strictly above
    the threshold; an empty store is the case where there is no record at
    all. *)
Theorem searchDocuments_no_match
  (S : Services) (db : Database) (query : JSString) (limit : Number)
  (threshold : Q) (embedding : Embedding) :
  generateEmbedding S query = Returned embedding ->
  online db = true ->
  limitClause limit <> BadLimit ->
  (forall row s,
     In row (documents db) -> similarityOf S embedding row = Some s ->
     (s <= threshold)%Q) ->
  searchDocuments S db query limit threshold = Returned [].
Proof.
  intros He Hon Hlimit Hnone. unfold searchDocuments, similarDocuments.
  rewrite He, Hon. rewrite (selectWhere_none S embedding threshold _ Hnone).
  destruct (limitClause limit) as [|rows|]; [| |contradiction].
  - now rewrite (Permutation_nil (orderByDesc_perm S None [])).
  - rewrite (Permutation_nil (orderByDesc_perm S (Some rows) [])).
    now rewrite firstn_nil.
Qed.

Lemma searchDocuments_no_match_witness :
  searchDocuments stable emptyDb (lit "fox") (num 5) (1 # 2)%Q = Returned []
  /\ searchDocuments stable sampleDb (lit "fox") (num 5) (9 # 10)%Q
     = Returned [].
Proof.
  split.
  - apply (searchDocuments_no_match stable emptyDb (lit "fox") (num 5)
             (1 # 2)%Q (stubVector (lit "fox"))).
    + reflexivity.
    + reflexivity.
    + vm_compute. discriminate.
    + intros row s [].
  - apply (searchDocuments_no_match stable sampleDb (lit "fox") (num 5)
             (9 # 10)%Q (stubVector (lit "fox"))).
    + reflexivity.
    + reflexivity.
    + vm_compute. discriminate.
    + intros row s Hin Hs. simpl in Hin.
      repeat (destruct Hin as [<- | Hin];
              [ vm_compute in Hs; try discriminate Hs; injection Hs as <-;
                vm_compute; discriminate | ]).
      destruct Hin.
Defined.

(** An upstream failure is not an empty result: when the embedding call
    fails, [searchDocuments] throws the service's exception, also against
    an empty store. *)
Example searchDocuments_upstream_failure :
  searchDocuments embedderDown emptyDb (lit "fox") (num 5) (1 # 2)%Q
  = Thrown (mkExn EmbeddingService (lit "429 quota exceeded")).
Proof. vm_compute. reflexivity. Qed.

(** ** Embeddings *)

(** C9.  [generateEmbedding] submits to the embedding service the text with
    every newline replaced by a single space, and [generateEmbeddings]
    submits the list in which every element has been treated so. *)
Theorem embeddings_replace_newlines (S : Services) :
  (forall text, exists input,
      newlinesReplaced text input
      /\ generateEmbedding S text = await EmbeddingService (embed S input))
  /\ (forall texts, exists inputs,
        Forall2 newlinesReplaced texts inputs
        /\ generateEmbeddings S texts
           = await EmbeddingService (embedMany S inputs)).
Proof.
  split.
  - intros text. exists (replaceNewlines text).
    split; [apply replaceNewlines_spec | reflexivity].
  - intros texts. exists (List.map replaceNewlines texts).
    split; [|reflexivity].
    induction texts as [|t texts IH]; simpl; constructor;
      [apply replaceNewlines_spec | exact IH].
Qed.

Example replaceNewlines_sample :
  replaceNewlines (lit "page" ++ [LF] ++ lit "one" ++ [LF; LF] ++ lit "end")
  = lit "page one  end".
Proof. reflexivity. Qed.

(** ** Chunking *)

(** C7.  [chunkContent] hands to the splitter the content without its
    leading and trailing white space, and the splitter it uses is
    configured with chunkSize 150, chunkOverlap 20 and the single
    separator " ". *)
Theorem chunkContent_trims_then_splits (S : Services) (content : JSString) :
  trimmed content (trim content)
  /\ chunkContent S content
     = splitText S
         {| chunkSize := 150; chunkOverlap := 20; separators := [[SPACE]] |}
         (trim content).
Proof.
  split; [apply trim_trimmed | reflexivity].
Qed.

Example toString_samples :
  toString 0 = lit "0" /\ toString 3 = lit "3" /\ toString 12 = lit "12".
Proof. repeat split. Qed.

Example trim_sample :
  trim ([SPACE; LF; 160%N] ++ lit "a b" ++ [9%N; 13%N; 8232%N]) = lit "a b".
Proof. reflexivity. Qed.

(** ** Ingestion *)

(** A text is reported as without text exactly when it is empty or white
    space only. *)
Lemma trimStart_nil_inv (s : JSString) : trimStart s = [] -> Forall whiteSpace s.
Proof.
  induction s as [|c s IH]; simpl; [constructor|].
  destruct (isWhiteSpace c) eqn:Hc; [|discriminate].
  intros H. constructor; [exact Hc | now apply IH].
Qed.

Lemma trim_nil_iff (s : JSString) : trim s = [] <-> Forall whiteSpace s.
Proof.
  split.
  - intros H. destruct (trim_trimmed s) as (l & r & Hs & Hl & Hr & _).
    rewrite H in Hs. rewrite Hs. simpl. apply Forall_app. now split.
  - intros H. symmetry. apply trimmed_unique.
    exists s, []. simpl. rewrite app_nil_r. repeat split; auto.
Qed.

Lemma noText_iff (text : JSString) :
  noText text = true <-> Forall whiteSpace text.
Proof.
  unfold noText. rewrite orb_true_iff, !Nat.eqb_eq, !length_zero_iff_nil.
  rewrite trim_nil_iff. split.
  - intros [-> | H]; [constructor | exact H].
  - intros H. now right.
Qed.

(** Unfolds one run of the server action down to its awaited calls. *)
Ltac run_action :=
  unfold processPdfFile, tryCatch, processPdfFile_try, bind, call, ret, insert.

Section Upload.

Variable S : Services.
Variable formData : FormData.
Variable db : Database.

(** A run that does not report success leaves the database as it was. *)
Lemma processPdfFile_failure_keeps_db :
  success (fst (processPdfFile S formData db)) = false ->
  snd (processPdfFile S formData db) = db.
Proof.
  run_action.
  destruct (arrayBuffer _) as [buffer|e]; simpl; auto.
  destruct (await PdfParser _) as [text|e]; simpl; auto.
  destruct (noText text); simpl; auto.
  destruct (generateEmbeddings _ _) as [embeddings|e]; simpl; auto.
  destruct (insertValues _ _) as [db'|e]; simpl; auto.
  discriminate.
Qed.

(** The [catch] turns every exception into the same failure. *)
Lemma processPdfFile_thrown e :
  fst (processPdfFile_try S formData db) = Thrown e ->
  fst (processPdfFile S formData db) = Failure (lit "Failed to process PDF").
Proof.
  unfold processPdfFile, tryCatch.
  destruct (processPdfFile_try S formData db) as [[r|x] db']; simpl;
    [discriminate | reflexivity].
Qed.

(** The only failure the [try] block returns itself is the one for a
    blank text. *)
Lemma processPdfFile_try_failure msg :
  fst (processPdfFile_try S formData db) = Returned (Failure msg) ->
  msg = lit "No text found in PDF"
  /\ exists bytes text,
       formData_get formData (lit "pdf") = Some (EntryFile bytes)
       /\ getText S bytes = inr text /\ noText text = true.
Proof.
  run_action. unfold arrayBuffer.
  destruct (formData_get formData (lit "pdf")) as [[bytes|v]|]; simpl;
    try discriminate.
  destruct (getText S bytes) as [m|text] eqn:Et; simpl; try discriminate.
  destruct (noText text) eqn:En; simpl.
  - intros H. injection H as <-. split; [reflexivity|].
    exists bytes, text. auto.
  - destruct (generateEmbeddings _ _) as [embeddings|e]; simpl;
      try discriminate.
    destruct (insertValues _ _) as [db'|e]; simpl; discriminate.
Qed.

End Upload.

(** C3.  When the batch embedding step of an ingestion fails,
    [processPdfFile] reports a failure and the store is left as it was: no
    record is inserted and the row count is unchanged. *)
Theorem processPdfFile_embedding_failure
  (S : Services) (formData : FormData) (db : Database)
  (bytes : list N) (text : JSString) (e : Exn) :
  formData_get formData (lit "pdf") = Some (EntryFile bytes) ->
  getText S bytes = inr text ->
  generateEmbeddings S (chunkContent S text) = Thrown e ->
  success (fst (processPdfFile S formData db)) = false
  /\ snd (processPdfFile S formData db) = db
  /\ length (documents (snd (processPdfFile S formData db)))
     = length (documents db).
Proof.
  intros Hfile Htext Hembed.
  assert (Hfail : success (fst (processPdfFile S formData db)) = false).
  { run_action.
    rewrite Hfile. simpl. rewrite Htext. simpl.
    destruct (noText text); simpl; [reflexivity|].
    rewrite Hembed. reflexivity. }
  split; [exact Hfail|].
  rewrite (processPdfFile_failure_keeps_db S formData db Hfail). auto.
Qed.

Example processPdfFile_sample :
  fst (processPdfFile stable sampleUpload emptyDb)
  = Success (lit "Created 4 searchable chunks")
  /\ List.map row_id (documents (snd (processPdfFile stable sampleUpload emptyDb)))
     = [1; 2; 3; 4]%Z
  /\ List.map row_content
       (documents (snd (processPdfFile stable sampleUpload emptyDb)))
     = [lit "the"; lit "quick"; lit "brown"; lit "fox"].
Proof. vm_compute. auto. Qed.

Lemma processPdfFile_embedding_failure_witness :
  generateEmbeddings embedderDown
    (chunkContent embedderDown (lit "the quick brown fox"))
  = Thrown (mkExn EmbeddingService (lit "429 quota exceeded"))
  /\ success (fst (processPdfFile embedderDown sampleUpload sampleDb)) = false
  /\ snd (processPdfFile embedderDown sampleUpload sampleDb) = sampleDb
  /\ length (documents (snd (processPdfFile embedderDown sampleUpload sampleDb)))
     = length (documents sampleDb).
Proof.
  split; [reflexivity|].
  apply (processPdfFile_embedding_failure embedderDown sampleUpload sampleDb
           (lit "the quick brown fox") (lit "the quick brown fox")
           (mkExn EmbeddingService (lit "429 quota exceeded")));
    reflexivity.
Defined.

Lemma generateEmbeddings_request (S : Services) (texts : list JSString) :
  generateEmbeddings S texts
  = await EmbeddingService (embedMany S (List.map replaceNewlines texts)).
Proof. reflexivity. Qed.

(** An upload whose PDF holds white space only. *)
Definition blankUpload : FormData :=
  [ (lit "pdf", EntryFile [SPACE; LF; 9%N]) ].

(** C4 (as amended).  Every failing ingestion returns a structured failure
    [{ success: false, error }], never an exception, and leaves the store
    as it was: a document whose text is empty or white space only is
    reported as "No text found in PDF", and every other failure (no file,
    PDF parsing, embedding service, store) as the one message
    "Failed to process PDF"; every run that does not report success has
    one of these causes, and the message of the empty document is the
    message of no other kind. *)
Theorem processPdfFile_failure_result
  (S : Services) (formData : FormData) (db : Database) :
  (forall kind,
      IngestionFailure S formData db kind ->
      processPdfFile S formData db = (Failure (errorFor kind), db))
  /\ (success (fst (processPdfFile S formData db)) = false ->
      exists kind, IngestionFailure S formData db kind)
  /\ (forall kind,
        errorFor kind = lit "No text found in PDF"
        <-> kind = EmptyDocumentError).
Proof.
  split; [|split].
  - intros kind H. run_action. unfold arrayBuffer.
    destruct H as [Hnone | bytes msg Hf Ht | bytes text Hf Ht Hblank
                   | bytes text msg Hf Ht Htext He
                   | bytes text embeddings e Hf Ht Htext He Hi].
    + destruct (formData_get formData (lit "pdf")) as [[bytes|v]|]; simpl;
        try reflexivity.
      exfalso. exact (Hnone bytes eq_refl).
    + rewrite Hf. simpl. rewrite Ht. reflexivity.
    + rewrite Hf. simpl. rewrite Ht. simpl.
      apply noText_iff in Hblank. rewrite Hblank. reflexivity.
    + rewrite Hf. simpl. rewrite Ht. simpl.
      destruct (noText text) eqn:En;
        [exfalso; apply Htext, noText_iff, En|].
      rewrite generateEmbeddings_request. unfold chunkContent.
      rewrite He. reflexivity.
    + rewrite Hf. simpl. rewrite Ht. simpl.
      destruct (noText text) eqn:En;
        [exfalso; apply Htext, noText_iff, En|].
      rewrite generateEmbeddings_request. unfold chunkContent.
      rewrite He. simpl. rewrite Hi. reflexivity.
  - run_action. unfold arrayBuffer.
    destruct (formData_get formData (lit "pdf")) as [[bytes|v]|] eqn:Hf;
      simpl.
    + destruct (getText S bytes) as [msg|text] eqn:Ht; simpl.
      * intros _. exists OtherError. now apply ParserFailed with bytes msg.
      * destruct (noText text) eqn:En; simpl.
        -- intros _. exists EmptyDocumentError.
           apply NoTextInDocument with bytes text; auto.
           now apply noText_iff.
        -- assert (Htext : ~ Forall whiteSpace text).
           { intros Hb. apply noText_iff in Hb. congruence. }
           rewrite generateEmbeddings_request. unfold chunkContent.
           destruct (embedMany S _) as [msg|embeddings] eqn:He; simpl.
           ++ intros _. exists EmbeddingServiceError.
              now apply EmbedderFailed with bytes text msg.
           ++ destruct (insertValues db _) as [db'|e] eqn:Hi; simpl.
              ** discriminate.
              ** intros _. exists StoreError.
                 now apply StoreFailed with bytes text embeddings e.
    + intros _. exists OtherError. apply NoFile. intros bytes. congruence.
    + intros _. exists OtherError. apply NoFile. intros bytes. congruence.
  - intros kind. split.
    + destruct kind; simpl; intros H; try reflexivity; discriminate H.
    + intros ->. reflexivity.
Qed.

Lemma processPdfFile_failure_result_witness :
  IngestionFailure stable blankUpload sampleDb EmptyDocumentError
  /\ processPdfFile stable blankUpload sampleDb
     = (Failure (lit "No text found in PDF"), sampleDb).
Proof.
  assert (H : IngestionFailure stable blankUpload sampleDb EmptyDocumentError).
  { apply NoTextInDocument with [SPACE; LF; 9%N] [SPACE; LF; 9%N].
    - reflexivity.
    - reflexivity.
    - repeat constructor. }
  split; [exact H|].
  exact (proj1 (processPdfFile_failure_result stable blankUpload sampleDb)
               EmptyDocumentError H).
Defined.

Lemma sampleText_not_blank : ~ Forall whiteSpace (lit "the quick brown fox").
Proof. intros H. inversion H as [|c l Hc _]. discriminate Hc. Qed.

(** C4 as stated fails: a failure of the embedding service and a failure of
    the store give the caller the same result, so no reading of the result
    tells the two kinds apart. *)
Lemma processPdfFile_kinds_not_distinguished :
  IngestionFailure embedderDown sampleUpload emptyDb EmbeddingServiceError
  /\ IngestionFailure stable sampleUpload offlineDb StoreError
  /\ fst (processPdfFile embedderDown sampleUpload emptyDb)
     = fst (processPdfFile stable sampleUpload offlineDb)
  /\ ~ exists classify : ActionResult -> FailureKind,
         forall S formData db kind,
           IngestionFailure S formData db kind ->
           classify (fst (processPdfFile S formData db)) = kind.
Proof.
  assert (H1 : IngestionFailure embedderDown sampleUpload emptyDb
                 EmbeddingServiceError).
  { apply EmbedderFailed with (lit "the quick brown fox")
      (lit "the quick brown fox") (lit "429 quota exceeded").
    - reflexivity.
    - reflexivity.
    - exact sampleText_not_blank.
    - reflexivity. }
  assert (H2 : IngestionFailure stable sampleUpload offlineDb StoreError).
  { apply StoreFailed with (lit "the quick brown fox")
      (lit "the quick brown fox")
      (List.map stubVector
         [lit "the"; lit "quick"; lit "brown"; lit "fox"])
      connectionError.
    - reflexivity.
    - reflexivity.
    - exact sampleText_not_blank.
    - reflexivity.
    - reflexivity. }
  assert (H3 : fst (processPdfFile embedderDown sampleUpload emptyDb)
               = fst (processPdfFile stable sampleUpload offlineDb))
    by (vm_compute; reflexivity).
  repeat split; auto.
  intros (classify & Hc).
  pose proof (Hc _ _ _ _ H1) as E1. pose proof (Hc _ _ _ _ H2) as E2.
  rewrite H3 in E1. congruence.
Qed.

(** ** The knowledge-base tool *)

(** C10.  Whatever the query, the tool runs the search with limit 3 and
    threshold 0.5 and answers "No relevant information found" when that
    search returns no result; so a text it answers is that message or the
    numbered contents of at most three results, each of similarity above
    0.5. *)
Theorem execute_fixed_parameters
  (S : Services) (db : Database) (query : JSString) :
  execute S db query
  = match searchDocuments S db query (num 3) (1 # 2)%Q with
    | Returned [] => Text (lit "No relevant information found")
    | Returned (r :: rest) => Text (formattedResults (r :: rest))
    | Thrown error =>
        ErrorObject (lit "Failed to search the knowledge base") (message error)
    end
  /\ forall t,
       execute S db query = Text t ->
       t = lit "No relevant information found"
       \/ exists results,
            results <> [] /\ length results <= 3
            /\ (forall r, In r results -> (1 # 2 < similarity r)%Q)
            /\ t = formattedResults results.
Proof.
  unfold execute.
  destruct (searchDocuments S db query (num 3) (1 # 2)%Q) as [[|r rest]|e] eqn:E;
    simpl; (split; [reflexivity|]); intros t Ht; try discriminate Ht.
  - left. congruence.
  - right. exists (r :: rest). injection Ht as <-.
    split; [discriminate|]. split; [|split; [|reflexivity]].
    + destruct (searchDocuments_sorted_prefix _ _ _ _ _ _ E)
        as (v & dropped & _ & _ & _ & Hlen).
      change (limitClause (num 3)) with (LimitRows 3) in Hlen.
      rewrite Hlen. apply Nat.le_min_l.
    + destruct (searchDocuments_selected _ _ _ _ _ _ E) as (v & _ & Hsel).
      intros x Hx. apply Hsel, selectWhere_In in Hx.
      now destruct Hx as (_ & _ & _ & Hlt & _).
Qed.

Lemma execute_fixed_parameters_witness :
  execute stable sampleDb (lit "fox") = Text (formattedResults foxTop3)
  /\ (formattedResults foxTop3 = lit "No relevant information found"
      \/ exists results,
           results <> [] /\ length results <= 3
           /\ (forall r, In r results -> (1 # 2 < similarity r)%Q)
           /\ formattedResults foxTop3 = formattedResults results).
Proof.
  assert (H : execute stable sampleDb (lit "fox")
              = Text (formattedResults foxTop3)) by (vm_compute; reflexivity).
  split; [exact H|].
  exact (proj2 (execute_fixed_parameters stable sampleDb (lit "fox"))
               (formattedResults foxTop3) H).
Defined.

Example execute_sample :
  execute stable sampleDb (lit "fox")
  = Text (lit "[1] the quick brown fox" ++ [LF] ++ lit "[2] jumps over"
            ++ [LF] ++ lit "[3] and runs").
Proof. vm_compute. reflexivity. Qed.

Example execute_no_results :
  execute stable emptyDb (lit "fox") = Text (lit "No relevant information found").
Proof. vm_compute. reflexivity. Qed.

Example execute_search_failed :
  execute embedderDown sampleDb (lit "fox")
  = ErrorObject (lit "Failed to search the knowledge base")
                (lit "429 quota exceeded").
Proof. vm_compute. reflexivity. Qed.

(** * The request path around the pipeline *)

(** ** middleware.ts and the route handler [POST] of route.ts *)

(** What the two functions read of a request. *)
Record Request : Type := mkRequest {
  url : JSString;
  pathname : JSString
}.

(** The collaborators of the request path. *)
Record Gateway : Type := mkGateway {
  (** the test of one route pattern of [createRouteMatcher] on a pathname *)
  testRoute : JSString -> JSString -> bool;
  (** [await auth.protect()]: throws unless the request is signed in *)
  authProtect : Request -> Outcome unit;
  (** [new URL(path, base)] *)
  newURL : JSString -> JSString -> JSString;
  (** [(await aj.protect(req, { requested: 1 })).reason.isRateLimit()] *)
  ajProtect : Request -> Outcome bool;
  (** [(await req.json()).messages] *)
  json : Request -> Outcome JSString;
  (** [streamText({ ..., messages, tools }).toUIMessageStreamResponse()] *)
  streamText : JSString -> Outcome JSString
}.

(** [process.env.NAME]: undefined or a string; in a condition it counts as
    true when it is a non-empty string. *)
Definition truthy (value : option JSString) : bool :=
  match value with
  | Some (_ :: _) => true
  | _ => false
  end.

(** [createRouteMatcher(routes)]: some pattern matches the pathname. *)
Definition createRouteMatcher (G : Gateway) (routes : list JSString)
  (req : Request) : bool :=
  existsb (fun route => testRoute G route (pathname req)) routes.

Definition isProtectedRoute (G : Gateway) : Request -> bool :=
  createRouteMatcher G
    [lit "/ui/rag(.*)"; lit "/api/rag(.*)"; lit "/upload(.*)"].

Definition isAdminRoute (G : Gateway) : Request -> bool :=
  createRouteMatcher G [lit "/upload(.*)"].

(** What the middleware's handler returns: a redirect, or nothing (the
    request goes on to its route). *)
Inductive MiddlewareResult : Type :=
| Redirect (to : JSString)
| Continue.

(** The handler given to [clerkMiddleware]; [IS_DEV_MODE] is
    [process.env.IS_DEV_MODE]. *)
Definition middleware (G : Gateway) (IS_DEV_MODE : option JSString)
  (req : Request) : Outcome MiddlewareResult :=
  if isAdminRoute G req && negb (truthy IS_DEV_MODE)
  then Returned (Redirect (newURL G (lit "/") (url req)))
  else if isProtectedRoute G req
       then match authProtect G req with
            | Returned _ => Returned Continue
            | Thrown e => Thrown e
            end
       else Returned Continue.

(** A response: its status and, for a JSON body, the fields of the object. *)
Inductive ResponseBody : Type :=
| JsonBody (fields : list (JSString * JSString))
| StreamBody (stream : JSString).

Record Response : Type := mkResponse {
  status : nat;
  body : ResponseBody
}.

Definition tooManyRequests : Response :=
  mkResponse 429
    (JsonBody
       [ (lit "error", lit "Too Many Requests");
         (lit "message",
          lit "You have reached the rate limit for today. Please try again tomorrow.") ]).

Definition internalServerError (error : Exn) : Response :=
  mkResponse 500
    (JsonBody [ (lit "error", lit "Internal Server Error");
                (lit "details", message error) ]).

(** The [try { ... } catch (error) { ... }] of [POST]. *)
Definition POST_try (G : Gateway) (req : Request) : Response :=
  match json G req with
  | Thrown error => internalServerError error
  | Returned messages =>
      match streamText G messages with
      | Thrown error => internalServerError error
      | Returned stream => mkResponse 200 (StreamBody stream)
      end
  end.

(** [export async function POST(req)] *)
Definition POST (G : Gateway) (IS_DEV_MODE : option JSString) (req : Request)
  : Outcome Response :=
  if negb (truthy IS_DEV_MODE)
  then match ajProtect G req with
       | Thrown e => Thrown e
       | Returned isRateLimit =>
           if isRateLimit then Returned tooManyRequests
           else Returned (POST_try G req)
       end
  else Returned (POST_try G req).

(** A gateway for the examples: a pattern matches the paths that start with
    its text before the opening parenthesis, the limiter answers [limited]
    or is unreachable, and the chat streams back its messages. *)
Fixpoint prefixUpToParen (pattern path : JSString) : bool :=
  match pattern, path with
  | c :: pattern', d :: path' =>
      if (c =? 40)%N then true
      else (c =? d)%N && prefixUpToParen pattern' path'
  | c :: _, [] => (c =? 40)%N
  | [], _ => match path with [] => true | _ => false end
  end.

Definition jsonError : Exn :=
  mkExn Runtime (lit "Unexpected end of JSON input").

Definition stubGateway (signedIn : bool) (limiter : option bool) : Gateway :=
  {| testRoute := prefixUpToParen;
     authProtect := fun _ =>
       if signedIn then Returned tt
       else Thrown (mkExn Runtime (lit "NEXT_HTTP_ERROR_FALLBACK;404"));
     newURL := fun path base => base ++ path;
     ajProtect := fun _ =>
       match limiter with
       | Some limited => Returned limited
       | None => Thrown (mkExn Runtime (lit "fetch failed"))
       end;
     json := fun req =>
       match url req with
       | [] => Thrown jsonError
       | _ => Returned (lit "hello")
       end;
     streamText := fun messages => Returned messages |}.

Definition uploadRequest : Request :=
  mkRequest (lit "https://example.test") (lit "/upload/new").
Definition chatRequest : Request :=
  mkRequest (lit "https://example.test") (lit "/api/rag").
Definition homeRequest : Request :=
  mkRequest (lit "https://example.test") (lit "/").

(** * Further properties *)

(** ** Strings and chunking *)




Lemma trim_surrounded (l s r : JSString) :
  Forall whiteSpace l -> Forall whiteSpace r -> trim (l ++ s ++ r) = trim s.
Proof.
  intros Hl Hr. symmetry. apply trimmed_unique.
  destruct (trim_trimmed s) as (l1 & r1 & Hs & Hl1 & Hr1 & Hstart & Hend).
  exists (l ++ l1), (r1 ++ r). repeat split; auto.
  - rewrite Hs at 1. now rewrite <- !app_assoc.
  - apply Forall_app. now split.
  - apply Forall_app. now split.
Qed.

(** [trim] is idempotent: trimming a trimmed string changes nothing. *)
Theorem trim_idempotent (s : JSString) : trim (trim s) = trim s.
Proof.
  symmetry. apply trimmed_unique.
  destruct (trim_trimmed s) as (l & r & _ & _ & _ & Hstart & Hend).
  exists [], []. simpl. rewrite app_nil_r. repeat split; auto.
Qed.

(** X1.  White space around a document does not change its chunks:
    [chunkContent] gives the same result for a content and for that
    content wrapped in any leading and trailing white space. *)
Theorem chunkContent_ignores_outer_space
  (S : Services) (leading content trailing : JSString) :
  Forall whiteSpace leading -> Forall whiteSpace trailing ->
  chunkContent S (leading ++ content ++ trailing) = chunkContent S content.
Proof.
  intros Hl Hr. unfold chunkContent. now rewrite trim_surrounded.
Qed.

Lemma chunkContent_ignores_outer_space_witness :
  chunkContent stable ([SPACE; LF] ++ lit "quick fox" ++ [9%N])
  = chunkContent stable (lit "quick fox").
Proof.
  apply (chunkContent_ignores_outer_space stable [SPACE; LF] (lit "quick fox")
           [9%N]); repeat constructor.
Defined.

Lemma replaceNewlines_idempotent (text : JSString) :
  replaceNewlines (replaceNewlines text) = replaceNewlines text.
Proof.
  induction text as [|c text IH]; simpl; [reflexivity|].
  rewrite IH. destruct (c =? LF)%N eqn:E; [reflexivity | now rewrite E].
Qed.

(** A text and the same text with its newlines already replaced by
    spaces are submitted to the embedding service as the same input, by
    [generateEmbedding] and, element by element, by [generateEmbeddings]. *)
Theorem embeddings_newline_insensitive (S : Services) :
  (forall text,
      generateEmbedding S (replaceNewlines text) = generateEmbedding S text)
  /\ (forall texts,
        generateEmbeddings S (List.map replaceNewlines texts)
        = generateEmbeddings S texts).
Proof.
  split.
  - intros text. unfold generateEmbedding.
    now rewrite replaceNewlines_idempotent.
  - intros texts. unfold generateEmbeddings. rewrite map_map.
    f_equal. f_equal. apply map_ext. intros t.
    apply replaceNewlines_idempotent.
Qed.

(** ** Search *)

Lemma desc_trans : Relations_1.Transitive desc.
Proof.
  intros a b c Hab Hbc. unfold desc in *. eapply Qle_trans; eassumption.
Qed.

Lemma StronglySorted_app_inv {A} (R : A -> A -> Prop) (l1 l2 : list A) :
  StronglySorted R (l1 ++ l2) ->
  forall x y, In x l1 -> In y l2 -> R x y.
Proof.
  induction l1 as [|a l1 IH]; simpl; intros Hs x y Hx Hy; [contradiction|].
  inversion Hs as [|? ? Hrest Hall]; subst.
  destruct Hx as [<- | Hx].
  - rewrite Forall_forall in Hall. apply Hall, in_or_app. now right.
  - now apply IH.
Qed.

(** X2.  Every result of a successful [searchDocuments] is a stored row
    that has an embedding: its id and content are that row's, and its
    similarity is 1 minus the cosine distance between the row's embedding
    and the embedding of the query (newlines replaced); rows without an
    embedding are never returned. *)
Theorem searchDocuments_results_stored
  (S : Services) (db : Database) (query : JSString) (limit : Number)
  (threshold : Q) (results : list SearchResult) :
  searchDocuments S db query limit threshold = Returned results ->
  exists embedding,
    embed S (replaceNewlines query) = inr embedding
    /\ forall r, In r results ->
         exists row stored,
           In row (documents db)
           /\ row_embedding row = Some stored
           /\ id r = row_id row
           /\ result_content r = row_content row
           /\ similarity r = (1 - cosineDistance S stored embedding)%Q.
Proof.
  intros H.
  destruct (searchDocuments_selected _ _ _ _ _ _ H) as (e & He & Hsel).
  exists e. split.
  - unfold generateEmbedding, await in He.
    destruct (embed S (replaceNewlines query)); congruence.
  - intros r Hr. apply Hsel, selectWhere_In in Hr.
    destruct Hr as (row & Hrow & Hs & _ & ->). simpl in *.
    unfold similarityOf in Hs.
    destruct (row_embedding row) as [stored|] eqn:E; [|discriminate].
    exists row, stored. injection Hs as Hs. auto.
Qed.

Lemma searchDocuments_results_stored_witness :
  searchDocuments stable sampleDb (lit "fox") (num 3) (1 # 2)%Q
  = Returned foxTop3
  /\ exists embedding,
       embed stable (replaceNewlines (lit "fox")) = inr embedding
       /\ forall r, In r foxTop3 ->
            exists row stored,
              In row (documents sampleDb)
              /\ row_embedding row = Some stored
              /\ id r = row_id row
              /\ result_content r = row_content row
              /\ similarity r
                 = (1 - cosineDistance stable stored embedding)%Q.
Proof.
  assert (H : searchDocuments stable sampleDb (lit "fox") (num 3) (1 # 2)%Q
              = Returned foxTop3) by (vm_compute; reflexivity).
  split; [exact H|].
  exact (searchDocuments_results_stored
           stable sampleDb (lit "fox") (num 3) (1 # 2)%Q foxTop3 H).
Defined.

(** A stored row counts as above the threshold when it has an embedding
    and its similarity to the query is strictly greater. *)
Definition aboveThreshold (S : Services) (embedding : Embedding)
  (threshold : Q) (row : Row) : bool :=
  match row_embedding row with
  | Some stored =>
      negb (Qle_bool (1 - cosineDistance S stored embedding) threshold)
  | None => false
  end.

Lemma selectWhere_length S embedding threshold rows :
  length (selectWhere S embedding threshold rows)
  = length (filter (aboveThreshold S embedding threshold) rows).
Proof.
  induction rows as [|row rows IH]; simpl; [reflexivity|].
  unfold aboveThreshold, similarityOf, gt.
  destruct (row_embedding row) as [stored|]; [|exact IH].
  destruct (negb _); simpl; now rewrite IH.
Qed.

(** X3.  The number of results of a successful [searchDocuments]: with a
    limit that is not [>= 0] (negative or NaN) it is the number of stored
    rows above the threshold; with a limit [>= 0] the limit is an integer
    and it is the smaller of the limit and that number. *)
Theorem searchDocuments_count
  (S : Services) (db : Database) (query : JSString) (limit : Number)
  (threshold : Q) (results : list SearchResult) :
  searchDocuments S db query limit threshold = Returned results ->
  exists embedding,
    generateEmbedding S query = Returned embedding
    /\ (geZero limit = false ->
        length results
        = length (filter (aboveThreshold S embedding threshold)
                    (documents db)))
    /\ (geZero limit = true ->
        exists rows q,
          limit = Finite q /\ (inject_Z (Z.of_nat rows) == q)%Q
          /\ length results
             = Nat.min rows
                 (length (filter (aboveThreshold S embedding threshold)
                            (documents db)))).
Proof.
  intros H.
  destruct (searchDocuments_sorted_prefix _ _ _ _ _ _ H)
    as (e & dropped & He & Hperm & _ & Hclause).
  exists e. split; [exact He|]. rewrite <- selectWhere_length. split.
  - intros Hneg. unfold limitClause in Hclause. rewrite Hneg in Hclause.
    subst dropped. rewrite app_nil_r in Hperm.
    symmetry. now apply Permutation_length.
  - intros Hge.
    destruct (limitClause limit) as [|rows|] eqn:El; [| |contradiction].
    + unfold limitClause in El. rewrite Hge in El.
      destruct limit as [| | |q]; try discriminate.
      destruct (isInteger q && (toInteger q <? 2 ^ 63)%Z); discriminate.
    + destruct (limitClause_geZero limit rows Hge El) as (q & Hq & Heq).
      exists rows, q. auto.
Qed.

Lemma searchDocuments_count_witness :
  searchDocuments stable sampleDb (lit "fox") (num (-1)) (1 # 2)%Q
  = Returned foxTop3
  /\ exists embedding,
       generateEmbedding stable (lit "fox") = Returned embedding
       /\ (geZero (num (-1)) = false ->
           length foxTop3
           = length (filter (aboveThreshold stable embedding (1 # 2)%Q)
                       (documents sampleDb)))
       /\ (geZero (num (-1)) = true ->
           exists rows q,
             num (-1) = Finite q /\ (inject_Z (Z.of_nat rows) == q)%Q
             /\ length foxTop3
                = Nat.min rows
                    (length (filter (aboveThreshold stable embedding (1 # 2)%Q)
                               (documents sampleDb)))).
Proof.
  assert (H : searchDocuments stable sampleDb (lit "fox") (num (-1)) (1 # 2)%Q
              = Returned foxTop3) by (vm_compute; reflexivity).
  split; [exact H|].
  exact (searchDocuments_count stable sampleDb (lit "fox") (num (-1))
           (1 # 2)%Q foxTop3 H).
Defined.

(** X4.  The limit cuts off the worst rows only: the rows above the
    threshold are the returned results together with some dropped rows,
    and no dropped row has a higher similarity than a returned one. *)
Theorem searchDocuments_keeps_best
  (S : Services) (db : Database) (query : JSString) (limit : Number)
  (threshold : Q) (results : list SearchResult) :
  searchDocuments S db query limit threshold = Returned results ->
  exists embedding dropped,
    generateEmbedding S query = Returned embedding
    /\ Permutation (selectWhere S embedding threshold (documents db))
                   (results ++ dropped)
    /\ forall r d, In r results -> In d dropped ->
                   (similarity d <= similarity r)%Q.
Proof.
  intros H.
  destruct (searchDocuments_sorted_prefix _ _ _ _ _ _ H)
    as (e & dropped & He & Hperm & Hsorted & _).
  exists e, dropped. split; [exact He|]. split; [exact Hperm|].
  intros r d Hr Hd.
  assert (Hs : StronglySorted desc (results ++ dropped)).
  { apply Sorted_StronglySorted; [exact desc_trans | exact Hsorted]. }
  exact (StronglySorted_app_inv desc _ _ Hs r d Hr Hd).
Qed.

Lemma searchDocuments_keeps_best_witness :
  searchDocuments stable sampleDb (lit "fox") (num 2) (1 # 2)%Q
  = Returned foxTop2
  /\ exists embedding dropped,
       generateEmbedding stable (lit "fox") = Returned embedding
       /\ Permutation
            (selectWhere stable embedding (1 # 2)%Q (documents sampleDb))
            (foxTop2 ++ dropped)
       /\ forall r d, In r foxTop2 -> In d dropped ->
                      (similarity d <= similarity r)%Q.
Proof.
  assert (H : searchDocuments stable sampleDb (lit "fox") (num 2) (1 # 2)%Q
              = Returned foxTop2) by (vm_compute; reflexivity).
  split; [exact H|].
  exact (searchDocuments_keeps_best stable sampleDb (lit "fox") (num 2)
           (1 # 2)%Q foxTop2 H).
Defined.

(** X6.  Newlines in a query do not matter: a query and the same query with
    its newlines replaced by spaces give the same search outcome. *)
Theorem searchDocuments_newline_insensitive
  (S : Services) (db : Database) (query : JSString) (limit : Number)
  (threshold : Q) :
  searchDocuments S db (replaceNewlines query) limit threshold
  = searchDocuments S db query limit threshold.
Proof.
  unfold searchDocuments, generateEmbedding.
  now rewrite replaceNewlines_idempotent.
Qed.

(** ** Ingestion *)

(** The records [processPdfFile] builds from the chunks and the embeddings. *)
Definition recordsOf (chunks : list JSString) (embeddings : list Embedding)
  : list InsertDocument :=
  mapi (fun chunk index =>
          {| content := chunk; embedding := nth_error embeddings index |})
       chunks.

Lemma mapi_from_length {A B} (f : A -> nat -> B) (xs : list A) (start : nat) :
  length (mapi_from start f xs) = length xs.
Proof.
  revert start. induction xs as [|x xs IH]; intros start; simpl; auto.
Qed.

Lemma mapi_from_nth {A B} (f : A -> nat -> B) (xs : list A) (start i : nat) :
  nth_error (mapi_from start f xs) i
  = option_map (fun x => f x (start + i)) (nth_error xs i).
Proof.
  revert start i. induction xs as [|x xs IH]; intros start [|i]; simpl; auto.
  - now rewrite Nat.add_0_r.
  - rewrite IH. now rewrite Nat.add_succ_r.
Qed.

Lemma recordsOf_nth chunks embeddings i :
  nth_error (recordsOf chunks embeddings) i
  = option_map (fun chunk => {| content := chunk;
                                embedding := nth_error embeddings i |})
               (nth_error chunks i).
Proof. unfold recordsOf, mapi. now rewrite mapi_from_nth. Qed.

Lemma recordsOf_length chunks embeddings :
  length (recordsOf chunks embeddings) = length chunks.
Proof. apply mapi_from_length. Qed.

Lemma assignIds_length next values :
  length (assignIds next values) = length values.
Proof.
  revert next. induction values as [|v values IH]; intros next; simpl; auto.
Qed.

Lemma assignIds_nth values : forall next i,
  nth_error (assignIds next values) i
  = option_map (fun v => mkRow (next + Z.of_nat i) (content v) (embedding v))
               (nth_error values i).
Proof.
  induction values as [|v values IH]; intros next [|i]; simpl; auto.
  - now rewrite Z.add_0_r.
  - rewrite IH. destruct (nth_error values i); simpl; [|reflexivity].
    do 2 f_equal. lia.
Qed.

Lemma insertValues_returned db values db' :
  insertValues db values = Returned db' ->
  online db = true /\ values <> []
  /\ db' = {| online := online db;
              documents := documents db ++ assignIds (serial db) values;
              serial := serial db + Z.of_nat (length values) |}.
Proof.
  unfold insertValues. destruct (online db); simpl; [|discriminate].
  destruct values as [|v values]; [discriminate|].
  destruct (forallb fitsColumn (v :: values)); [|discriminate].
  intros H. injection H as <-. repeat split. discriminate.
Qed.

(** What a successful run went through. *)
Lemma processPdfFile_success_inv S formData db msg db' :
  processPdfFile S formData db = (Success msg, db') ->
  exists bytes text embeddings,
    formData_get formData (lit "pdf") = Some (EntryFile bytes)
    /\ getText S bytes = inr text
    /\ noText text = false
    /\ generateEmbeddings S (chunkContent S text) = Returned embeddings
    /\ insertValues db (recordsOf (chunkContent S text) embeddings)
       = Returned db'
    /\ msg = lit "Created " ++ toString (length (chunkContent S text))
               ++ lit " searchable chunks".
Proof.
  run_action. unfold arrayBuffer.
  destruct (formData_get formData (lit "pdf")) as [[bytes|v]|]; simpl;
    try discriminate.
  destruct (getText S bytes) as [m|text] eqn:Et; simpl; try discriminate.
  destruct (noText text) eqn:En; simpl; try discriminate.
  destruct (generateEmbeddings S (chunkContent S text)) as [embeddings|e]
    eqn:Ee; simpl; try discriminate.
  fold (recordsOf (chunkContent S text) embeddings).
  destruct (insertValues db (recordsOf (chunkContent S text) embeddings))
    as [db''|e] eqn:Ei; simpl; try discriminate.
  intros H. injection H as <- <-.
  exists bytes, text, embeddings. rewrite recordsOf_length. auto 10.
Qed.

(** The rows a run adds, whatever its outcome. *)
Lemma processPdfFile_appends S formData db :
  exists added,
    documents (snd (processPdfFile S formData db)) = documents db ++ added
    /\ online (snd (processPdfFile S formData db)) = online db.
Proof.
  destruct (processPdfFile S formData db) as [[msg|err] db'] eqn:E; simpl.
  - apply processPdfFile_success_inv in E.
    destruct E as (bytes & text & embeddings & _ & _ & _ & _ & Hi & _).
    apply insertValues_returned in Hi. destruct Hi as (_ & _ & ->).
    simpl. eauto.
  - assert (H := processPdfFile_failure_keeps_db S formData db).
    rewrite E in H. simpl in H. rewrite H by reflexivity.
    exists []. now rewrite app_nil_r.
Qed.

(** X7.  A successful ingestion stores the document's chunks, in order, as
    new rows after the existing ones, and reports their number: the message
    is "Created n searchable chunks" with n the number of chunks, which is
    also the growth of the row count, and n is not zero. *)
Theorem processPdfFile_success
  (S : Services) (formData : FormData) (db db' : Database) (msg : JSString) :
  processPdfFile S formData db = (Success msg, db') ->
  exists bytes text added,
    formData_get formData (lit "pdf") = Some (EntryFile bytes)
    /\ getText S bytes = inr text
    /\ documents db' = documents db ++ added
    /\ List.map row_content added = chunkContent S text
    /\ chunkContent S text <> []
    /\ length (documents db')
       = length (documents db) + length (chunkContent S text)
    /\ msg = lit "Created " ++ toString (length (chunkContent S text))
               ++ lit " searchable chunks".
Proof.
  intros H. apply processPdfFile_success_inv in H.
  destruct H as (bytes & text & embeddings & Hf & Ht & _ & _ & Hi & ->).
  apply insertValues_returned in Hi. destruct Hi as (_ & Hne & ->).
  exists bytes, text,
    (assignIds (serial db) (recordsOf (chunkContent S text) embeddings)).
  simpl. repeat split; auto.
  - apply nth_error_ext. intros i.
    rewrite nth_error_map, assignIds_nth, recordsOf_nth.
    now destruct (nth_error (chunkContent S text) i).
  - intros Hnil. apply Hne. unfold recordsOf. now rewrite Hnil.
  - now rewrite length_app, assignIds_length, recordsOf_length.
Qed.

Lemma processPdfFile_success_witness :
  exists db',
    processPdfFile stable sampleUpload emptyDb
    = (Success (lit "Created 4 searchable chunks"), db')
    /\ exists bytes text added,
         formData_get sampleUpload (lit "pdf") = Some (EntryFile bytes)
         /\ getText stable bytes = inr text
         /\ documents db' = documents emptyDb ++ added
         /\ List.map row_content added = chunkContent stable text
         /\ chunkContent stable text <> []
         /\ length (documents db')
            = length (documents emptyDb) + length (chunkContent stable text)
         /\ lit "Created 4 searchable chunks"
            = lit "Created " ++ toString (length (chunkContent stable text))
                ++ lit " searchable chunks".
Proof.
  exists (snd (processPdfFile stable sampleUpload emptyDb)).
  assert (H : processPdfFile stable sampleUpload emptyDb
              = (Success (lit "Created 4 searchable chunks"),
                 snd (processPdfFile stable sampleUpload emptyDb)))
    by (vm_compute; reflexivity).
  split; [exact H|].
  exact (processPdfFile_success stable sampleUpload emptyDb _ _ H).
Defined.

(** X8.  A successful ingestion stores each chunk with the embedding at
    the same position of the embedder's answer: the i-th new row holds the
    i-th chunk and the i-th embedding, and no embedding (NULL) when the
    embedder returned fewer vectors than there are chunks. *)
Theorem processPdfFile_aligns_embeddings
  (S : Services) (formData : FormData) (db db' : Database) (msg : JSString) :
  processPdfFile S formData db = (Success msg, db') ->
  exists bytes text embeddings added,
    formData_get formData (lit "pdf") = Some (EntryFile bytes)
    /\ getText S bytes = inr text
    /\ embedMany S (List.map replaceNewlines (chunkContent S text))
       = inr embeddings
    /\ documents db' = documents db ++ added
    /\ length added = length (chunkContent S text)
    /\ forall i row,
         nth_error added i = Some row ->
         nth_error (chunkContent S text) i = Some (row_content row)
         /\ row_embedding row = nth_error embeddings i.
Proof.
  intros H. apply processPdfFile_success_inv in H.
  destruct H as (bytes & text & embeddings & Hf & Ht & _ & He & Hi & _).
  apply insertValues_returned in Hi. destruct Hi as (_ & _ & ->).
  exists bytes, text, embeddings,
    (assignIds (serial db) (recordsOf (chunkContent S text) embeddings)).
  simpl. repeat split; auto.
  - unfold generateEmbeddings, await in He.
    destruct (embedMany S _); congruence.
  - now rewrite assignIds_length, recordsOf_length.
  - rewrite assignIds_nth, recordsOf_nth in H.
    destruct (nth_error (chunkContent S text) i); simpl in H;
      [injection H as <-; reflexivity | discriminate].
  - rewrite assignIds_nth, recordsOf_nth in H.
    destruct (nth_error (chunkContent S text) i); simpl in H;
      [injection H as <-; reflexivity | discriminate].
Qed.

Lemma processPdfFile_aligns_embeddings_witness :
  exists db',
    processPdfFile stable sampleUpload emptyDb
    = (Success (lit "Created 4 searchable chunks"), db')
    /\ exists bytes text embeddings added,
         formData_get sampleUpload (lit "pdf") = Some (EntryFile bytes)
         /\ getText stable bytes = inr text
         /\ embedMany stable (List.map replaceNewlines (chunkContent stable text))
            = inr embeddings
         /\ documents db' = documents emptyDb ++ added
         /\ length added = length (chunkContent stable text)
         /\ forall i row,
              nth_error added i = Some row ->
              nth_error (chunkContent stable text) i = Some (row_content row)
              /\ row_embedding row = nth_error embeddings i.
Proof.
  exists (snd (processPdfFile stable sampleUpload emptyDb)).
  assert (H : processPdfFile stable sampleUpload emptyDb
              = (Success (lit "Created 4 searchable chunks"),
                 snd (processPdfFile stable sampleUpload emptyDb)))
    by (vm_compute; reflexivity).
  split; [exact H|].
  exact (processPdfFile_aligns_embeddings stable sampleUpload emptyDb _ _ H).
Defined.

(** X9.  Ingestion only ever appends: whatever the outcome of a run, the
    rows that were stored before are still there, unchanged and in the
    same order, at the start of the table. *)
Theorem processPdfFile_append_only
  (S : Services) (formData : FormData) (db : Database) :
  exists added,
    documents (snd (processPdfFile S formData db)) = documents db ++ added
    /\ (success (fst (processPdfFile S formData db)) = false -> added = []).
Proof.
  destruct (processPdfFile_appends S formData db) as (added & Ha & _).
  exists added. split; [exact Ha|].
  intros Hfail.
  rewrite (processPdfFile_failure_keeps_db S formData db Hfail) in Ha.
  rewrite <- (app_nil_r (documents db)) in Ha at 1.
  now apply app_inv_head in Ha.
Qed.

(** X10.  An upload without a file under the key "pdf" (no such entry, or a
    string entry) fails with "Failed to process PDF" and leaves the store
    as it was, whatever the services would answer. *)
Theorem processPdfFile_missing_file
  (S : Services) (formData : FormData) (db : Database) :
  (forall bytes, formData_get formData (lit "pdf") <> Some (EntryFile bytes)) ->
  processPdfFile S formData db = (Failure (lit "Failed to process PDF"), db).
Proof.
  intros H. run_action. unfold arrayBuffer.
  destruct (formData_get formData (lit "pdf")) as [[bytes|v]|]; simpl;
    try reflexivity.
  exfalso. exact (H bytes eq_refl).
Qed.

Lemma processPdfFile_missing_file_witness :
  processPdfFile stable [ (lit "file", EntryFile (lit "the quick brown fox")) ]
    sampleDb
  = (Failure (lit "Failed to process PDF"), sampleDb)
  /\ processPdfFile stable [ (lit "pdf", EntryString (lit "fox.pdf")) ] sampleDb
     = (Failure (lit "Failed to process PDF"), sampleDb).
Proof.
  split.
  - apply (processPdfFile_missing_file stable
             [ (lit "file", EntryFile (lit "the quick brown fox")) ] sampleDb).
    intros bytes. vm_compute. discriminate.
  - apply (processPdfFile_missing_file stable
             [ (lit "pdf", EntryString (lit "fox.pdf")) ] sampleDb).
    intros bytes. vm_compute. discriminate.
Defined.

(** X11.  A parsed PDF is reported as "No text found in PDF" exactly when
    its text consists of white space only (the empty text included). *)
Theorem processPdfFile_no_text_iff
  (S : Services) (formData : FormData) (db : Database)
  (bytes : list N) (text : JSString) :
  formData_get formData (lit "pdf") = Some (EntryFile bytes) ->
  getText S bytes = inr text ->
  (fst (processPdfFile S formData db) = Failure (lit "No text found in PDF")
   <-> Forall whiteSpace text).
Proof.
  intros Hf Ht. rewrite <- noText_iff.
  run_action. unfold arrayBuffer. rewrite Hf. simpl. rewrite Ht. simpl.
  destruct (noText text); simpl.
  - split; reflexivity.
  - split; [|discriminate].
    destruct (generateEmbeddings _ _) as [embeddings|e]; simpl;
      [|discriminate].
    destruct (insertValues _ _) as [db'|e]; simpl; discriminate.
Qed.

Lemma processPdfFile_no_text_iff_witness :
  fst (processPdfFile stable [ (lit "pdf", EntryFile [SPACE; LF; 9%N]) ] sampleDb)
  = Failure (lit "No text found in PDF")
  <-> Forall whiteSpace [SPACE; LF; 9%N].
Proof.
  apply (processPdfFile_no_text_iff stable
           [ (lit "pdf", EntryFile [SPACE; LF; 9%N]) ] sampleDb
           [SPACE; LF; 9%N] [SPACE; LF; 9%N]); reflexivity.
Defined.

(** ** Ingestion followed by search *)

Lemma selectWhere_more S embedding threshold rows rows' r :
  (forall row, In row rows -> In row rows') ->
  In r (selectWhere S embedding threshold rows) ->
  In r (selectWhere S embedding threshold rows').
Proof.
  intros Hsub Hr. apply selectWhere_In in Hr. apply selectWhere_In.
  destruct Hr as (row & Hrow & H). exists row. split; auto.
Qed.

(** [n < limit] for a length [n] *)
Definition lengthBelow (n : nat) (limit : Number) : Prop :=
  match limit with
  | Finite q => (inject_Z (Z.of_nat n) < q)%Q
  | Infinity => True
  | NaN | NegInfinity => False
  end.

(** The limit did not cut a result of [n] rows: the limit is not [>= 0]
    (the query has no LIMIT), or [n] is below it. *)
Definition notCut (limit : Number) (n : nat) : Prop :=
  geZero limit = false \/ lengthBelow n limit.

Lemma notCut_rows (limit : Number) (n rows : nat) :
  notCut limit n -> limitClause limit = LimitRows rows -> n < rows.
Proof.
  intros [Hneg | Hbelow] El.
  - unfold limitClause in El. rewrite Hneg in El. discriminate.
  - destruct (geZero limit) eqn:Hge.
    + destruct (limitClause_geZero limit rows Hge El) as (q & -> & Hq).
      simpl in Hbelow. rewrite <- Hq in Hbelow.
      rewrite <- Zlt_Qlt in Hbelow. lia.
    + unfold limitClause in El. rewrite Hge in El. discriminate.
Qed.

(** X12.  Ingesting a document never hides what was found before: when a
    search succeeded, and the same search after any run of [processPdfFile]
    succeeds without its limit cutting, every earlier result is among the
    later ones. *)
Theorem ingestion_keeps_results
  (S : Services) (formData : FormData) (db : Database) (query : JSString)
  (limit limit' : Number) (threshold : Q)
  (results results' : list SearchResult) :
  searchDocuments S db query limit threshold = Returned results ->
  searchDocuments S (snd (processPdfFile S formData db)) query limit' threshold
  = Returned results' ->
  notCut limit' (length results') ->
  forall r, In r results -> In r results'.
Proof.
  intros H H' Hcut r Hr.
  destruct (processPdfFile_appends S formData db) as (added & Hdocs & _).
  destruct (searchDocuments_selected _ _ _ _ _ _ H) as (e & He & Hsel).
  destruct (searchDocuments_uncut _ _ _ _ _ _ H'
              (fun rows => notCut_rows _ _ rows Hcut))
    as (e2 & He2 & Hall).
  assert (e2 = e) by congruence. subst e2.
  apply Hall.
  apply selectWhere_more with (rows := documents db).
  - intros row Hrow. rewrite Hdocs. apply in_or_app. now left.
  - now apply Hsel.
Qed.

(** The sample store's rows for a threshold of -10, before the sample
    upload is ingested (cut to three) and after it (all eight). *)
Definition foxBefore : list SearchResult := foxTop3.

Definition foxAfter : list SearchResult :=
  [ mkResult 1 (lit "the quick brown fox") (9 # 10)%Q;
    mkResult 2 (lit "jumps over") (9 # 10)%Q;
    mkResult 4 (lit "and runs") (3 # 5)%Q;
    mkResult 3 (lit "the lazy dog") (1 # 2)%Q;
    mkResult 6 (lit "the") (-2 # 1)%Q;
    mkResult 9 (lit "fox") (-2 # 1)%Q;
    mkResult 7 (lit "quick") (-4 # 1)%Q;
    mkResult 8 (lit "brown") (-4 # 1)%Q ].

Lemma ingestion_keeps_results_witness :
  searchDocuments stable sampleDb (lit "fox") (num 3) (-10 # 1)%Q
  = Returned foxBefore
  /\ searchDocuments stable (snd (processPdfFile stable sampleUpload sampleDb))
       (lit "fox") (num 10) (-10 # 1)%Q
     = Returned foxAfter
  /\ notCut (num 10) (length foxAfter)
  /\ forall r, In r foxBefore -> In r foxAfter.
Proof.
  assert (H : searchDocuments stable sampleDb (lit "fox") (num 3) (-10 # 1)%Q
              = Returned foxBefore) by (vm_compute; reflexivity).
  assert (H' : searchDocuments stable
                 (snd (processPdfFile stable sampleUpload sampleDb))
                 (lit "fox") (num 10) (-10 # 1)%Q
               = Returned foxAfter) by (vm_compute; reflexivity).
  assert (Hcut : notCut (num 10) (length foxAfter))
    by (right; vm_compute; reflexivity).
  split; [exact H|]. split; [exact H'|]. split; [exact Hcut|].
  exact (ingestion_keeps_results stable sampleUpload sampleDb (lit "fox")
           (num 3) (num 10) (-10 # 1)%Q foxBefore foxAfter H H' Hcut).
Defined.

(** X13.  What is ingested can be found: after a successful ingestion of
    an uploaded document, a search that succeeds without its limit cutting
    returns every chunk of that document's text whose stored embedding
    gives a similarity above the threshold, with that chunk as content and
    1 minus the cosine distance as similarity. *)
Theorem ingested_chunks_searchable
  (S : Services) (formData : FormData) (db db' : Database) (msg : JSString)
  (query : JSString) (limit : Number) (threshold : Q)
  (results : list SearchResult) :
  processPdfFile S formData db = (Success msg, db') ->
  searchDocuments S db' query limit threshold = Returned results ->
  notCut limit (length results) ->
  exists bytes text embeddings embedding,
    formData_get formData (lit "pdf") = Some (EntryFile bytes)
    /\ getText S bytes = inr text
    /\ embedMany S (List.map replaceNewlines (chunkContent S text))
       = inr embeddings
    /\ generateEmbedding S query = Returned embedding
    /\ forall i chunk v,
         nth_error (chunkContent S text) i = Some chunk ->
         nth_error embeddings i = Some v ->
         (threshold < 1 - cosineDistance S v embedding)%Q ->
         exists r,
           In r results /\ result_content r = chunk
           /\ similarity r = (1 - cosineDistance S v embedding)%Q.
Proof.
  intros Hrun Hsearch Hcut.
  apply processPdfFile_success_inv in Hrun.
  destruct Hrun as (bytes & text & embeddings & Hf & Ht & _ & He & Hi & _).
  apply insertValues_returned in Hi. destruct Hi as (_ & _ & ->).
  destruct (searchDocuments_uncut _ _ _ _ _ _ Hsearch
              (fun rows => notCut_rows _ _ rows Hcut))
    as (e & Hq & Hall).
  exists bytes, text, embeddings, e.
  split; [exact Hf|]. split; [exact Ht|]. split; [|split; [exact Hq|]].
  - rewrite generateEmbeddings_request in He. unfold await in He.
    destruct (embedMany S _); congruence.
  - intros i chunk v Hc Hv Habove.
    set (row := mkRow (serial db + Z.of_nat i) chunk (Some v)).
    exists (mkResult (row_id row) (row_content row)
                     (1 - cosineDistance S v e)%Q).
    split; [|split; reflexivity].
    apply Hall, selectWhere_In. exists row. simpl. repeat split; auto.
    apply in_or_app. right. apply nth_error_In with (n := i).
    rewrite assignIds_nth, recordsOf_nth, Hc. simpl. now rewrite Hv.
Qed.

(** The four chunks of the sample upload as the search returns them. *)
Definition foxChunks : list SearchResult :=
  [ mkResult 1 (lit "the") (-2 # 1)%Q;
    mkResult 4 (lit "fox") (-2 # 1)%Q;
    mkResult 2 (lit "quick") (-4 # 1)%Q;
    mkResult 3 (lit "brown") (-4 # 1)%Q ].

Lemma ingested_chunks_searchable_witness :
  exists db',
    processPdfFile stable sampleUpload emptyDb
    = (Success (lit "Created 4 searchable chunks"), db')
    /\ searchDocuments stable db' (lit "fox") (num 10) (-10 # 1)%Q
       = Returned foxChunks
    /\ notCut (num 10) (length foxChunks)
    /\ exists bytes text embeddings embedding,
         formData_get sampleUpload (lit "pdf") = Some (EntryFile bytes)
         /\ getText stable bytes = inr text
         /\ embedMany stable (List.map replaceNewlines (chunkContent stable text))
            = inr embeddings
         /\ generateEmbedding stable (lit "fox") = Returned embedding
         /\ forall i chunk v,
              nth_error (chunkContent stable text) i = Some chunk ->
              nth_error embeddings i = Some v ->
              (-10 # 1 < 1 - cosineDistance stable v embedding)%Q ->
              exists r,
                In r foxChunks /\ result_content r = chunk
                /\ similarity r = (1 - cosineDistance stable v embedding)%Q.
Proof.
  exists (snd (processPdfFile stable sampleUpload emptyDb)).
  assert (Hrun : processPdfFile stable sampleUpload emptyDb
                 = (Success (lit "Created 4 searchable chunks"),
                    snd (processPdfFile stable sampleUpload emptyDb)))
    by (vm_compute; reflexivity).
  assert (Hsearch : searchDocuments stable
                      (snd (processPdfFile stable sampleUpload emptyDb))
                      (lit "fox") (num 10) (-10 # 1)%Q
                    = Returned foxChunks) by (vm_compute; reflexivity).
  assert (Hcut : notCut (num 10) (length foxChunks))
    by (right; vm_compute; reflexivity).
  split; [exact Hrun|]. split; [exact Hsearch|]. split; [exact Hcut|].
  exact (ingested_chunks_searchable stable sampleUpload emptyDb _ _
           (lit "fox") (num 10) (-10 # 1)%Q foxChunks Hrun Hsearch Hcut).
Defined.

(** ** The knowledge-base tool *)

Lemma formattedResults_head (r : SearchResult) (rest : list SearchResult) :
  exists tail, formattedResults (r :: rest) = 91%N :: tail.
Proof.
  unfold formattedResults, mapi. simpl.
  destruct (mapi_from 1 _ rest); simpl; eauto.
Qed.

(** X14.  The tool answers "No relevant information found" exactly when the
    search returns no result: the numbered list of a non-empty result is
    never that text, and a failed search gives the error object. *)
Theorem execute_no_results_iff
  (S : Services) (db : Database) (query : JSString) :
  execute S db query = Text (lit "No relevant information found")
  <-> searchDocuments S db query (num 3) (1 # 2)%Q = Returned [].
Proof.
  unfold execute.
  destruct (searchDocuments S db query (num 3) (1 # 2)%Q) as [[|r rest]|e]; simpl.
  - split; reflexivity.
  - destruct (formattedResults_head r rest) as (tail & ->).
    split; intros H; discriminate H.
  - split; intros H; discriminate H.
Qed.

(** ** Middleware *)

Lemma admin_is_protected (G : Gateway) (req : Request) :
  isAdminRoute G req = true -> isProtectedRoute G req = true.
Proof.
  unfold isAdminRoute, isProtectedRoute, createRouteMatcher. simpl.
  rewrite !orb_false_r. intros ->. now rewrite !orb_true_r.
Qed.

(** X15.  A request to an admin route ([/upload...]) is never let through
    unchecked: unless [IS_DEV_MODE] is a non-empty string it is redirected
    to "/", and otherwise it goes on only after [auth.protect()] passed. *)
Theorem middleware_admin_route
  (G : Gateway) (IS_DEV_MODE : option JSString) (req : Request) :
  isAdminRoute G req = true ->
  (truthy IS_DEV_MODE = false ->
   middleware G IS_DEV_MODE req
   = Returned (Redirect (newURL G (lit "/") (url req))))
  /\ (middleware G IS_DEV_MODE req = Returned Continue ->
      truthy IS_DEV_MODE = true /\ authProtect G req = Returned tt).
Proof.
  intros Hadmin. assert (Hprot := admin_is_protected G req Hadmin).
  unfold middleware. rewrite Hadmin, Hprot.
  destruct (truthy IS_DEV_MODE); simpl.
  - split; [discriminate|]. intros H. split; [reflexivity|].
    destruct (authProtect G req) as [[]|e]; [reflexivity | discriminate].
  - split; [reflexivity | discriminate].
Qed.

Lemma middleware_admin_route_witness :
  isAdminRoute (stubGateway true None) uploadRequest = true
  /\ (truthy None = false ->
      middleware (stubGateway true None) None uploadRequest
      = Returned (Redirect (newURL (stubGateway true None) (lit "/")
                                   (url uploadRequest))))
  /\ (middleware (stubGateway true None) None uploadRequest = Returned Continue ->
      truthy None = true
      /\ authProtect (stubGateway true None) uploadRequest = Returned tt).
Proof.
  assert (H : isAdminRoute (stubGateway true None) uploadRequest = true)
    by reflexivity.
  split; [exact H|].
  exact (middleware_admin_route (stubGateway true None) None uploadRequest H).
Defined.

(** X16.  A request to a protected route ([/ui/rag...], [/api/rag...],
    [/upload...]) goes on to its route only after [auth.protect()] passed;
    when [auth.protect()] throws and the request is not redirected, the
    middleware throws the same exception. *)
Theorem middleware_protected_needs_auth
  (G : Gateway) (IS_DEV_MODE : option JSString) (req : Request) :
  isProtectedRoute G req = true ->
  (middleware G IS_DEV_MODE req = Returned Continue ->
   authProtect G req = Returned tt)
  /\ (forall e, authProtect G req = Thrown e ->
        middleware G IS_DEV_MODE req = Thrown e
        \/ exists to, middleware G IS_DEV_MODE req = Returned (Redirect to)).
Proof.
  intros Hprot. unfold middleware. rewrite Hprot.
  destruct (isAdminRoute G req && negb (truthy IS_DEV_MODE)).
  - split; [discriminate|]. intros e _. right. eauto.
  - split.
    + destruct (authProtect G req) as [[]|e]; [reflexivity | discriminate].
    + intros e ->. now left.
Qed.

Lemma middleware_protected_needs_auth_witness :
  isProtectedRoute (stubGateway false None) chatRequest = true
  /\ middleware (stubGateway false None) None chatRequest
     = Thrown (mkExn Runtime (lit "NEXT_HTTP_ERROR_FALLBACK;404")).
Proof.
  assert (H : isProtectedRoute (stubGateway false None) chatRequest = true)
    by reflexivity.
  split; [exact H|].
  destruct (proj2 (middleware_protected_needs_auth
                     (stubGateway false None) None chatRequest H)
                  (mkExn Runtime (lit "NEXT_HTTP_ERROR_FALLBACK;404"))
                  eq_refl) as [Hthrown | (to & Hredirect)].
  - exact Hthrown.
  - vm_compute in Hredirect. discriminate Hredirect.
Defined.

(** X17.  A request to a route outside the protected list passes the
    middleware untouched: it is neither redirected nor checked, whatever
    [auth.protect()] would do and whatever [IS_DEV_MODE] is. *)
Theorem middleware_public_route
  (G : Gateway) (IS_DEV_MODE : option JSString) (req : Request) :
  isProtectedRoute G req = false ->
  middleware G IS_DEV_MODE req = Returned Continue.
Proof.
  intros Hpub. unfold middleware. rewrite Hpub.
  destruct (isAdminRoute G req) eqn:Hadmin; simpl; [|reflexivity].
  apply admin_is_protected in Hadmin. congruence.
Qed.

Lemma middleware_public_route_witness :
  isProtectedRoute (stubGateway false None) homeRequest = false
  /\ middleware (stubGateway false None) None homeRequest = Returned Continue.
Proof.
  assert (H : isProtectedRoute (stubGateway false None) homeRequest = false)
    by reflexivity.
  split; [exact H|].
  exact (middleware_public_route (stubGateway false None) None homeRequest H).
Defined.

(** ** The chat route *)

Lemma POST_try_status (G : Gateway) (req : Request) :
  status (POST_try G req) = 200 \/ status (POST_try G req) = 500.
Proof.
  unfold POST_try. destruct (json G req) as [m|e]; simpl; auto.
  destruct (streamText G m); simpl; auto.
Qed.

Lemma truthy_false (value : option JSString) :
  truthy value = false <-> value = None \/ value = Some [].
Proof.
  destruct value as [[|c v]|]; simpl; split; auto; try discriminate.
  intros [H|H]; discriminate H.
Qed.

(** X18.  [POST] answers 429 exactly when [IS_DEV_MODE] is unset or empty
    and the limiter's decision has a rate-limit reason; with any non-empty
    [IS_DEV_MODE] the limiter is not consulted. *)
Theorem POST_429_iff
  (G : Gateway) (IS_DEV_MODE : option JSString) (req : Request) :
  (exists r, POST G IS_DEV_MODE req = Returned r /\ status r = 429)
  <-> (IS_DEV_MODE = None \/ IS_DEV_MODE = Some [])
      /\ ajProtect G req = Returned true.
Proof.
  rewrite <- truthy_false. unfold POST.
  assert (Hs := POST_try_status G req).
  destruct (truthy IS_DEV_MODE); simpl.
  - split.
    + intros (r & Hr & H429). injection Hr as <-. lia.
    + intros (H & _). discriminate H.
  - destruct (ajProtect G req) as [[|]|e]; split.
    + auto.
    + intros _. exists tooManyRequests. auto.
    + intros (r & Hr & H429). injection Hr as <-. lia.
    + intros (_ & H). discriminate H.
    + intros (r & Hr & _). discriminate Hr.
    + intros (_ & H). discriminate H.
Qed.

(** X19.  The only exception that leaves [POST] is one thrown by the
    limiter (consulted when [IS_DEV_MODE] is unset or empty): a failure to
    read the request or to start the stream never escapes. *)
Theorem POST_throws_iff
  (G : Gateway) (IS_DEV_MODE : option JSString) (req : Request) (e : Exn) :
  POST G IS_DEV_MODE req = Thrown e
  <-> (IS_DEV_MODE = None \/ IS_DEV_MODE = Some [])
      /\ ajProtect G req = Thrown e.
Proof.
  rewrite <- truthy_false. unfold POST.
  destruct (truthy IS_DEV_MODE); simpl.
  - split; [discriminate | intros (H & _); discriminate H].
  - destruct (ajProtect G req) as [[|]|x]; split;
      try discriminate; try (intros (_ & H); discriminate H).
    + intros H. split; [reflexivity | congruence].
    + intros (_ & H). congruence.
Qed.



Example POST_samples :
  POST (stubGateway true (Some true)) None chatRequest = Returned tooManyRequests
  /\ POST (stubGateway true (Some true)) (Some (lit "false")) chatRequest
     = Returned (mkResponse 200 (StreamBody (lit "hello")))
  /\ POST (stubGateway true None) (Some []) chatRequest
     = Thrown (mkExn Runtime (lit "fetch failed")).
Proof. repeat split. Qed.
